(** * Legislative monitor: extraction and novelty detection

    A shallow embedding of [multi_government_scraper.py]: the three scrapers
    ([AlbertaLegislatureScraper], [HouseOfCommonsScraper],
    [StrathconaCountyScraper]) and [MultiGovernmentMonitor.check_all].

    Boundaries of the model:
    - text is a [string] of 8-bit characters; the character classes of the
      regular expression and of [str.strip] and [str.lower] are the ASCII
      ones, and [int] has no limit on the number of digits;
    - the page handed to a scraper is the tree that
      [BeautifulSoup(response.text, 'html.parser')] builds (type
      [Soup.node]); a request that raises, a status that
      [raise_for_status] rejects and a parser failure are one
      [RequestException];
    - [datetime.now()] is a clock that is read through an explicit counter;
    - exceptions are values of the error monad [result];
    - the three [check_for_new] methods, equal word for word up to their
      [month_map], are one function over the scraper;
    - [generate_summary], [main] and the routes of [api/index.py] take the
      text of [strftime] as an argument, return the JSON body as a value,
      and keep the [IndexError] of an index into [results['governments']]
      apart from the exceptions of the monitor (type [raised]). *)

From Stdlib Require Import List String Ascii ZArith Bool Lia Permutation Sorted.
Import ListNotations.
Local Open Scope string_scope.
Local Open Scope Z_scope.

Set Implicit Arguments.

(* ================================================================== *)
(** ** Exceptions *)

Inductive exn : Type :=
| ValueError
| TypeError.

Inductive result (A : Type) : Type :=
| Ok (a : A)
| Raise (e : exn).
Arguments Ok {A} a.
Arguments Raise {A} e.

Definition rbind {A B : Type} (m : result A) (k : A -> result B) : result B :=
  match m with
  | Ok a => k a
  | Raise e => Raise e
  end.

Notation "x <- m ;; k" := (rbind m (fun x => k))
  (at level 61, m at next level, right associativity).

(* ================================================================== *)
(** ** Python [str] operations used by the scrapers *)

Module Str.

Definition code (c : ascii) : N := N_of_ascii c.

Definition between (lo hi : N) (c : ascii) : bool :=
  (N.leb lo (code c) && N.leb (code c) hi)%bool.

(** [\d] *)
Definition is_digit (c : ascii) : bool := between 48 57 c.

(** [\w]: letters, digits and the underscore. *)
Definition is_word (c : ascii) : bool :=
  (between 97 122 c || between 65 90 c || is_digit c || N.eqb (code c) 95)%bool.

(** [\s] and [str.isspace]: TAB, LF, VT, FF, CR, FS, GS, RS, US, SPACE. *)
Definition is_space (c : ascii) : bool :=
  (between 9 13 c || between 28 31 c || N.eqb (code c) 32)%bool.

Definition lower_char (c : ascii) : ascii :=
  if between 65 90 c then ascii_of_N (code c + 32) else c.

(** [s.lower()] *)
Fixpoint lower (s : string) : string :=
  match s with
  | EmptyString => EmptyString
  | String c s' => String (lower_char c) (lower s')
  end.

(** [s.startswith(p)] *)
Definition startswith (s p : string) : bool := String.prefix p s.

(** [sub in s] *)
Fixpoint contains (sub s : string) : bool :=
  (String.prefix sub s ||
   match s with
   | EmptyString => false
   | String _ s' => contains sub s'
   end)%bool.

Fixpoint lstrip (s : string) : string :=
  match s with
  | EmptyString => EmptyString
  | String c s' => if is_space c then lstrip s' else s
  end.

Fixpoint rstrip (s : string) : string :=
  match s with
  | EmptyString => EmptyString
  | String c s' =>
      match rstrip s' with
      | EmptyString => if is_space c then EmptyString else String c EmptyString
      | r => String c r
      end
  end.

(** [s.strip()] *)
Definition strip (s : string) : string := rstrip (lstrip s).

Definition digit_value (c : ascii) : Z := Z.of_N (code c) - 48.

Fixpoint int_acc (acc : Z) (s : string) : Z :=
  match s with
  | EmptyString => acc
  | String c s' => int_acc (10 * acc + digit_value c) s'
  end.

(** [int(s)] on a string of decimal digits (the only strings the scrapers
    convert are groups matched by [\d+] and [\d{4}]). *)
Definition int (s : string) : Z := int_acc 0 s.

(** Truthiness of a string: [bool(s)]. *)
Definition truthy (s : string) : bool :=
  match s with EmptyString => false | _ => true end.

End Str.

(* ================================================================== *)
(** ** The date pattern [(\w+)\s+(\d+),\s+(\d{4})] *)

Module Re.

(** Longest prefix of [s] whose characters satisfy [p], and the rest. *)
Fixpoint span (p : ascii -> bool) (s : string) : string * string :=
  match s with
  | EmptyString => (EmptyString, EmptyString)
  | String c s' =>
      if p c then let (a, b) := span p s' in (String c a, b)
      else (EmptyString, s)
  end.

Definition nonempty (s : string) : bool := Str.truthy s.

(** Groups 1, 2, 3 of a match of the pattern. *)
Record groups : Type := mkGroups { g1 : string; g2 : string; g3 : string }.

(** A match anchored at the head of [s].  Every quantifier of the pattern is
    followed by a character outside its own class ([\w+] by [\s], [\s+] by
    [\d], [\d+] by a comma), so the greedy choice is the only one that can
    succeed and the backtracking matcher of [re] never retries a shorter
    repetition with success: the longest runs decide the match
    ([match_here_spec]). *)
Definition match_here (s : string) : option groups :=
  let (w, r1) := span Str.is_word s in
  let (s1, r2) := span Str.is_space r1 in
  let (d, r3) := span Str.is_digit r2 in
  if (nonempty w && nonempty s1 && nonempty d)%bool then
    match r3 with
    | String "," r4 =>
        let (s2, r5) := span Str.is_space r4 in
        if nonempty s2 then
          match r5 with
          | String a (String b (String c (String e _))) =>
              if (Str.is_digit a && Str.is_digit b &&
                  Str.is_digit c && Str.is_digit e)%bool
              then Some (mkGroups w d
                           (String a (String b (String c (String e EmptyString)))))
              else None
          | _ => None
          end
        else None
    | _ => None
    end
  else None.

(** [re.search(pattern, s)]: the match at the leftmost position that has one. *)
Fixpoint search (s : string) : option groups :=
  match match_here s with
  | Some g => Some g
  | None =>
      match s with
      | EmptyString => None
      | String _ s' => search s'
      end
  end.

End Re.

(* ================================================================== *)
(** ** The parsed page *)

Module Soup.

(** The tree built by [BeautifulSoup(markup, 'html.parser')].  A string node
    carries whether [get_text] collects it: [true] for [NavigableString] and
    [CData], [false] for the subclasses [get_text] leaves out ([Comment],
    [Doctype], [Script], ...).  The document itself is a [Tag] named
    ["[document]"]. *)
#[warnings="-register-all"]
Inductive node : Type :=
| NavigableString (visible : bool) (s : string)
| Tag (name : string) (attrs : list (string * string)) (contents : list node).

(** Every descendant of [p] paired with its [.parent], in document order. *)
Fixpoint with_parent (p : node) : list (node * node) :=
  match p with
  | NavigableString _ _ => []
  | Tag _ _ cs => flat_map (fun c => (p, c) :: with_parent c) cs
  end.

(** [p.descendants] *)
Definition descendants (p : node) : list node := map snd (with_parent p).

(** [tag.get(key)] *)
Fixpoint get (key : string) (attrs : list (string * string)) : option string :=
  match attrs with
  | [] => None
  | (k, v) :: rest => if String.eqb k key then Some v else get key rest
  end.

(** The value of [href] when [n] is matched by [find_all('a', href=True)]. *)
Definition a_href (n : node) : option string :=
  match n with
  | Tag name attrs _ => if String.eqb name "a" then get "href" attrs else None
  | NavigableString _ _ => None
  end.

Definition is_a_href (n : node) : bool :=
  match a_href n with Some _ => true | None => false end.

(** [link['href']] for a link returned by [find_all('a', href=True)]. *)
Definition href (n : node) : string :=
  match a_href n with Some h => h | None => EmptyString end.

(** [p.find_all('a', href=True)] *)
Definition find_all_a_href (p : node) : list node :=
  filter is_a_href (descendants p).

(** [soup.find_all('a', href=True)], each link with its [.parent]. *)
Definition find_all_a_href_with_parent (p : node) : list (node * node) :=
  filter (fun pc => is_a_href (snd pc)) (with_parent p).

Definition matches_date (s : string) : bool :=
  match Re.search s with Some _ => true | None => false end.

(** [soup.find_all(text=re.compile(r'\w+\s+\d+,\s+\d{4}'))]: the string nodes
    the pattern is found in, each as (parent, text). *)
Definition find_all_text (p : node) : list (node * string) :=
  flat_map (fun pc =>
              match snd pc with
              | NavigableString _ s => if matches_date s then [(fst pc, s)] else []
              | Tag _ _ _ => []
              end)
           (with_parent p).

Definition is_named (nm : string) (n : node) : bool :=
  match n with
  | Tag name _ _ => String.eqb name nm
  | NavigableString _ _ => false
  end.

(** [soup.find('title')] *)
Definition find_title (p : node) : option node :=
  List.find (is_named "title") (descendants p).

Definition visible_text (n : node) : string :=
  match n with
  | NavigableString true s => s
  | _ => EmptyString
  end.

(** [n.get_text()] *)
Definition get_text (n : node) : string :=
  fold_right String.append EmptyString (map visible_text (descendants n)).

End Soup.

(* ================================================================== *)
(** ** [datetime] *)

Module Datetime.

(** A [datetime.datetime]; [tzinfo] is the UTC offset in microseconds of an
    aware value and [None] for a naive one. *)
Record datetime : Type := mkDatetime {
  year : Z; month : Z; day : Z;
  hour : Z; minute : Z; second : Z; microsecond : Z;
  tzinfo : option Z
}.

Definition is_leap (y : Z) : bool :=
  ((y mod 4 =? 0) && (negb (y mod 100 =? 0) || (y mod 400 =? 0)))%bool.

Definition days_in_month (y m : Z) : Z :=
  match m with
  | 1 => 31 | 2 => if is_leap y then 29 else 28 | 3 => 31 | 4 => 30
  | 5 => 31 | 6 => 30 | 7 => 31 | 8 => 31 | 9 => 30 | 10 => 31
  | 11 => 30 | 12 => 31
  | _ => 0
  end.

Definition check_date_fields (y m d : Z) : bool :=
  ((1 <=? y) && (y <=? 9999) && (1 <=? m) && (m <=? 12) &&
   (1 <=? d) && (d <=? days_in_month y m))%bool.

Definition check_time_fields (h mi s us : Z) : bool :=
  ((0 <=? h) && (h <=? 23) && (0 <=? mi) && (mi <=? 59) &&
   (0 <=? s) && (s <=? 59) && (0 <=? us) && (us <=? 999999))%bool.

Definition day_us : Z := 86400 * 1000000.

(** [timezone(offset)] wants an offset strictly between -24h and 24h. *)
Definition check_tzinfo (tz : option Z) : bool :=
  match tz with
  | None => true
  | Some off => ((- day_us <? off) && (off <? day_us))%bool
  end.

(** The constructor [datetime(year, month, day, hour, minute, second,
    microsecond, tzinfo)]: [ValueError] on a field out of range. *)
Definition new (y m d h mi s us : Z) (tz : option Z) : result datetime :=
  if (check_date_fields y m d && check_time_fields h mi s us && check_tzinfo tz)%bool
  then Ok (mkDatetime y m d h mi s us tz)
  else Raise ValueError.

(** [datetime(year, month, day)] *)
Definition of_ymd (y m d : Z) : result datetime := new y m d 0 0 0 0 None.

Definition days_before_year (y : Z) : Z :=
  let p := y - 1 in p * 365 + p / 4 - p / 100 + p / 400.

Definition days_before_month (y m : Z) : Z :=
  match m with
  | 1 => 0 | 2 => 31 | 3 => 59 | 4 => 90 | 5 => 120 | 6 => 151 | 7 => 181
  | 8 => 212 | 9 => 243 | 10 => 273 | 11 => 304 | 12 => 334
  | _ => 0
  end + (if ((2 <? m) && is_leap y)%bool then 1 else 0).

(** [date.toordinal()]: the day number in the proleptic Gregorian calendar. *)
Definition ymd2ord (y m d : Z) : Z :=
  days_before_year y + days_before_month y m + d.

Definition toordinal (a : datetime) : Z := ymd2ord (year a) (month a) (day a).

(** Microseconds since the start of day 0, local time. *)
Definition to_us (a : datetime) : Z :=
  (((toordinal a * 24 + hour a) * 60 + minute a) * 60 + second a) * 1000000
  + microsecond a.

(** Lexicographic [>] on the seven fields. *)
Definition fields_gtb (a b : datetime) : bool :=
  match year a ?= year b with
  | Gt => true | Lt => false | Eq =>
  match month a ?= month b with
  | Gt => true | Lt => false | Eq =>
  match day a ?= day b with
  | Gt => true | Lt => false | Eq =>
  match hour a ?= hour b with
  | Gt => true | Lt => false | Eq =>
  match minute a ?= minute b with
  | Gt => true | Lt => false | Eq =>
  match second a ?= second b with
  | Gt => true | Lt => false | Eq =>
  microsecond b <? microsecond a
  end end end end end end.

(** [a > b]: two naive values compare by their fields, two aware values by
    their UTC instants, and a naive with an aware value raises [TypeError]. *)
Definition gt (a b : datetime) : result bool :=
  match tzinfo a, tzinfo b with
  | None, None => Ok (fields_gtb a b)
  | Some oa, Some ob => Ok (to_us b - ob <? to_us a - oa)
  | _, _ => Raise TypeError
  end.

(** *** [datetime.fromisoformat]

    Modelled from the library documentation: the accepted strings are
    [YYYY-MM-DD[*HH[:MM[:SS[.fff[fff]]]][+HH:MM[:SS[.ffffff]]]]], where [*]
    is any single character; anything else is a [ValueError]. *)

Fixpoint take_digits (n : nat) (acc : Z) (s : string) : option (Z * string) :=
  match n with
  | O => Some (acc, s)
  | S n' =>
      match s with
      | String c s' =>
          if Str.is_digit c
          then take_digits n' (10 * acc + Str.digit_value c) s'
          else None
      | EmptyString => None
      end
  end.

Definition obind {A B : Type} (m : option A) (k : A -> option B) : option B :=
  match m with Some a => k a | None => None end.

Definition expect (c : ascii) (s : string) : option string :=
  match s with
  | String c' s' => if Ascii.eqb c c' then Some s' else None
  | EmptyString => None
  end.

(** [.fff[fff]], the dot already read: microseconds. *)
Definition parse_fraction (s : string) : option (Z * string) :=
  match take_digits 6 0 s with
  | Some r => Some r
  | None => obind (take_digits 3 0 s) (fun '(v, r) => Some (v * 1000, r))
  end.

(** [HH[:MM[:SS[.fff[fff]]]]] *)
Definition parse_hh_mm_ss_ff (s : string) : option (Z * Z * Z * Z * string) :=
  obind (take_digits 2 0 s) (fun '(h, r) =>
  match r with
  | String ":" r1 =>
      obind (take_digits 2 0 r1) (fun '(mi, r2) =>
      match r2 with
      | String ":" r3 =>
          obind (take_digits 2 0 r3) (fun '(sec, r4) =>
          match r4 with
          | String "." r5 =>
              obind (parse_fraction r5) (fun '(us, r6) => Some (h, mi, sec, us, r6))
          | _ => Some (h, mi, sec, 0, r4)
          end)
      | _ => Some (h, mi, 0, 0, r2)
      end)
  | _ => Some (h, 0, 0, 0, r)
  end).

(** [+HH:MM[:SS[.ffffff]]] up to the end of the string. *)
Definition parse_offset (s : string) : option (option Z) :=
  match s with
  | EmptyString => Some None
  | String c r =>
      let sign := if Ascii.eqb c "-" then Some (-1)
                  else if Ascii.eqb c "+" then Some 1 else None in
      obind sign (fun sg =>
      obind (take_digits 2 0 r) (fun '(h, r1) =>
      obind (expect ":" r1) (fun r2 =>
      obind (take_digits 2 0 r2) (fun '(mi, r3) =>
      let off sec us := Some (Some (sg * (((h * 60 + mi) * 60 + sec) * 1000000 + us))) in
      match r3 with
      | EmptyString => off 0 0
      | String ":" r4 =>
          obind (take_digits 2 0 r4) (fun '(sec, r5) =>
          match r5 with
          | EmptyString => off sec 0
          | String "." r6 =>
              obind (take_digits 6 0 r6) (fun '(us, r7) =>
              match r7 with EmptyString => off sec us | _ => None end)
          | _ => None
          end)
      | _ => None
      end))))
  end.

Definition parse_isoformat (s : string)
  : option (Z * Z * Z * (Z * Z * Z * Z) * option Z) :=
  obind (take_digits 4 0 s) (fun '(y, r) =>
  obind (expect "-" r) (fun r1 =>
  obind (take_digits 2 0 r1) (fun '(m, r2) =>
  obind (expect "-" r2) (fun r3 =>
  obind (take_digits 2 0 r3) (fun '(d, r4) =>
  match r4 with
  | EmptyString => Some (y, m, d, (0, 0, 0, 0), None)
  | String _ t =>
      obind (parse_hh_mm_ss_ff t) (fun '(h, mi, sec, us, r5) =>
      obind (parse_offset r5) (fun tz => Some (y, m, d, (h, mi, sec, us), tz)))
  end))))).

Definition fromisoformat (s : string) : result datetime :=
  match parse_isoformat s with
  | Some (y, m, d, (h, mi, sec, us), tz) => new y m d h mi sec us tz
  | None => Raise ValueError
  end.

End Datetime.

(* ================================================================== *)
(** ** Items and the three scrapers *)

(** One entry of [latest_items]: the dict built by a scraper.  The Alberta
    scraper stores its link under ['pdf_url'], the other two under ['url']. *)
Record item : Type := mkItem {
  full_text : string;
  pdf_url : option string;
  url : option string;
  month : string;
  day : Z;
  year : Z;
  government : string
}.

(** The link of an item, under whichever key the scraper stored it. *)
Definition locator (it : item) : option string :=
  match pdf_url it with
  | Some u => Some u
  | None => url it
  end.

Inductive scraper : Type :=
| AlbertaLegislatureScraper
| HouseOfCommonsScraper
| StrathconaCountyScraper.

Definition name (s : scraper) : string :=
  match s with
  | AlbertaLegislatureScraper => "Alberta Legislature"
  | HouseOfCommonsScraper => "House of Commons (Canada)"
  | StrathconaCountyScraper => "Strathcona County Council"
  end.

Definition BASE_URL (s : scraper) : string :=
  match s with
  | AlbertaLegislatureScraper => "https://www.assembly.ab.ca"
  | HouseOfCommonsScraper => "https://www.ourcommons.ca"
  | StrathconaCountyScraper => "https://pub-strathcona.escribemeetings.com"
  end.

(** [TRANSCRIPTS_URL], [DEBATES_URL], [MEETINGS_URL]. *)
Definition PAGE_URL (s : scraper) : string :=
  BASE_URL s ++
  match s with
  | AlbertaLegislatureScraper => "/assembly-business/transcripts/transcripts-by-type"
  | HouseOfCommonsScraper => "/documentviewer/en/house/latest/hansard"
  | StrathconaCountyScraper => "/meetingscalendarview.aspx"
  end.

(** [self.BASE_URL + href if not href.startswith('http') else href] *)
Definition full_url (s : scraper) (href : string) : string :=
  if negb (Str.startswith href "http") then BASE_URL s ++ href else href.

(** *** [list.sort(key=lambda x: (x['year'], x['month'], x['day']), reverse=True)] *)

(** [key a > key b] on the tuples [(year, month, day)]; the middle component
    is the month as the page spells it, a [str], compared character by
    character. *)
Definition key_gtb (a b : item) : bool :=
  match year a ?= year b with
  | Gt => true
  | Lt => false
  | Eq =>
      match String.compare (month a) (month b) with
      | Gt => true
      | Lt => false
      | Eq => day b <? day a
      end
  end.

Fixpoint insert_desc (x : item) (l : list item) : list item :=
  match l with
  | [] => [x]
  | y :: l' => if key_gtb y x then y :: insert_desc x l' else x :: l
  end.

(** The sort is stable also with [reverse=True]: items with equal keys keep
    their order.  The outcome of a stable sort is fixed by the key order, so
    insertion from the right, placing an item before the first one whose key
    is not greater, gives the list that [list.sort] gives: a permutation,
    descending in the key, that keeps the order of equal keys
    ([sort_newest_first_perm], [sort_newest_first_sorted],
    [sort_newest_first_stable]). *)
Fixpoint sort_newest_first (l : list item) : list item :=
  match l with
  | [] => []
  | x :: l' => insert_desc x (sort_newest_first l')
  end.

(** *** [AlbertaLegislatureScraper.get_latest_info], the extraction *)

(** The first link below [parent] whose target contains "pdf". *)
Definition pdf_link (parent : Soup.node) : option string :=
  match List.find (fun link => Str.contains "pdf" (Str.lower (Soup.href link)))
                  (Soup.find_all_a_href parent) with
  | Some link => Some (full_url AlbertaLegislatureScraper (Soup.href link))
  | None => None
  end.

Definition alberta_entry (parent : Soup.node) (element : string) : list item :=
  match pdf_link parent with
  | Some link =>
      if Str.truthy link then
        match Re.search element with
        | Some date_match =>
            [ {| full_text := Str.strip element;
                 pdf_url := Some link;
                 url := None;
                 month := Re.g1 date_match;
                 day := Str.int (Re.g2 date_match);
                 year := Str.int (Re.g3 date_match);
                 government := "Alberta Legislature" |} ]
        | None => []
        end
      else []
  | None => []
  end.

Definition transcript_entries (soup : Soup.node) : list item :=
  flat_map (fun pe => alberta_entry (fst pe) (snd pe)) (Soup.find_all_text soup).

(** *** [HouseOfCommonsScraper.get_latest_info], the extraction *)

Definition commons_items (soup : Soup.node) : list item :=
  match Soup.find_title soup with
  | Some title =>
      let title_text := Soup.get_text title in
      match Re.search title_text with
      | Some date_match =>
          [ {| full_text := title_text;
               pdf_url := None;
               url := Some (PAGE_URL HouseOfCommonsScraper);
               month := Re.g1 date_match;
               day := Str.int (Re.g2 date_match);
               year := Str.int (Re.g3 date_match);
               government := "House of Commons (Canada)" |} ]
      | None => []
      end
  | None => []
  end.

(** *** [StrathconaCountyScraper.get_latest_info], the extraction *)

Definition is_council_link (text : string) : bool :=
  (Str.contains "council" (Str.lower text) &&
   (Str.contains "agenda" (Str.lower text) || Str.contains "minutes" (Str.lower text)))%bool.

Definition strathcona_entry (parent link : Soup.node) : list item :=
  let href := Soup.href link in
  let text := Str.strip (Soup.get_text link) in
  if is_council_link text then
    let parent_text := Soup.get_text parent in
    match Re.search parent_text with
    | Some date_match =>
        [ {| full_text := text;
             pdf_url := None;
             url := Some (full_url StrathconaCountyScraper href);
             month := Re.g1 date_match;
             day := Str.int (Re.g2 date_match);
             year := Str.int (Re.g3 date_match);
             government := "Strathcona County Council" |} ]
    | None => []
    end
  else [].

Definition meeting_items (soup : Soup.node) : list item :=
  flat_map (fun pl => strathcona_entry (fst pl) (snd pl))
           (Soup.find_all_a_href_with_parent soup).

(** [info['latest_items']] of a page that was fetched and parsed. *)
Definition latest_items (s : scraper) (soup : Soup.node) : list item :=
  match s with
  | AlbertaLegislatureScraper => firstn 5 (sort_newest_first (transcript_entries soup))
  | HouseOfCommonsScraper => commons_items soup
  | StrathconaCountyScraper => firstn 5 (sort_newest_first (meeting_items soup))
  end.

(* ================================================================== *)
(** ** Novelty: [check_for_new] *)

(** [d.get(key, default)] on a dict written as its literal. *)
Fixpoint dict_get (d : list (string * Z)) (key : string) (default : Z) : Z :=
  match d with
  | [] => default
  | (k, v) :: rest => if String.eqb k key then v else dict_get rest key default
  end.

(** [key in d] *)
Fixpoint dict_mem (d : list (string * Z)) (key : string) : bool :=
  match d with
  | [] => false
  | (k, _) :: rest => (String.eqb k key || dict_mem rest key)%bool
  end.

(** The three [month_map] literals. *)
Definition month_map (s : scraper) : list (string * Z) :=
  match s with
  | AlbertaLegislatureScraper =>
      [("Jan", 1); ("Feb", 2); ("Mar", 3); ("Apr", 4); ("May", 5); ("Jun", 6);
       ("Jul", 7); ("Aug", 8); ("Sep", 9); ("Oct", 10); ("Nov", 11); ("Dec", 12)]
  | HouseOfCommonsScraper =>
      [("January", 1); ("February", 2); ("March", 3); ("April", 4);
       ("May", 5); ("June", 6); ("July", 7); ("August", 8);
       ("September", 9); ("October", 10); ("November", 11); ("December", 12)]
  | StrathconaCountyScraper =>
      [("January", 1); ("February", 2); ("March", 3); ("April", 4);
       ("May", 5); ("June", 6); ("July", 7); ("August", 8);
       ("September", 9); ("October", 10); ("November", 11); ("December", 12);
       ("Jan", 1); ("Feb", 2); ("Mar", 3); ("Apr", 4); ("Jun", 6);
       ("Jul", 7); ("Aug", 8); ("Sep", 9); ("Oct", 10); ("Nov", 11); ("Dec", 12)]
  end.

(** [month_map.get(item['month'], 1)] *)
Definition month_number (s : scraper) (m : string) : Z :=
  dict_get (month_map s) m 1.

(** Normalization of a (month name, day, year) triple: the arguments handed
    to [datetime(...)], as (year, month, day). *)
Definition normalize (s : scraper) (month_name : string) (d y : Z) : Z * Z * Z :=
  (y, month_number s month_name, d).

(** The normalized date of an item. *)
Definition normalized_date (s : scraper) (it : item) : Z * Z * Z :=
  normalize s (month it) (day it) (year it).

(** The body of the [try] block: [item_date = datetime(...)] and then
    [item_date > last_check]. *)
Definition item_is_newer (s : scraper) (last_check : Datetime.datetime) (it : item)
  : result bool :=
  item_date <- Datetime.of_ymd (year it) (month_number s (month it)) (day it) ;;
  Datetime.gt item_date last_check.

(** The [for item in info['latest_items']] loop; [new_items] is the list
    built so far.  The bare [except: continue] drops the item on any
    exception. *)
Fixpoint collect_new (s : scraper) (last_check : Datetime.datetime)
         (items new_items : list item) : list item :=
  match items with
  | [] => new_items
  | it :: rest =>
      match item_is_newer s last_check it with
      | Ok true => collect_new s last_check rest (new_items ++ [it])
      | Ok false => collect_new s last_check rest new_items
      | Raise _ => collect_new s last_check rest new_items
      end
  end.

(** [not last_check_date]: true for [None] and for the empty string. *)
Definition absent (last_check_date : option string) : bool :=
  match last_check_date with
  | None => true
  | Some r => negb (Str.truthy r)
  end.

Definition the_string (last_check_date : option string) : string :=
  match last_check_date with Some r => r | None => EmptyString end.

(** [check_for_new] from the point where [info] holds no error: the three
    classes have this code word for word, up to their [month_map].  Python
    reads [return True, [latest] if latest else []] as the pair of [True] and
    the conditional expression. *)
Definition evaluate (s : scraper) (items : list item) (last_check_date : option string)
  : result (bool * list item) :=
  if absent last_check_date then
    let latest := hd_error items in
    Ok (true, match latest with Some l => [l] | None => [] end)
  else
    last_check <- Datetime.fromisoformat (the_string last_check_date) ;;
    let new_items := collect_new s last_check items [] in
    Ok ((0 <? List.length new_items)%nat, new_items).

(* ================================================================== *)
(** ** The outside world: the network and the clock *)

(** What [session.get(url)], [raise_for_status()] and the parser leave a
    scraper with: an exception with its message, or the parsed page. *)
Inductive response : Type :=
| RequestException (message : string)
| Page (soup : Soup.node).

Record world : Type := mkWorld {
  (** [datetime.now().isoformat()] at the n-th reading of the clock *)
  now_isoformat : nat -> string;
  (** the upstream content behind each URL *)
  session_get : string -> response
}.

(** Computations that read the clock (the state is the number of readings so
    far) and may raise. *)
Definition M (A : Type) : Type := nat -> result A * nat.

Definition ret {A : Type} (a : A) : M A := fun n => (Ok a, n).

Definition bind {A B : Type} (m : M A) (k : A -> M B) : M B :=
  fun n =>
    match m n with
    | (Ok a, n') => k a n'
    | (Raise e, n') => (Raise e, n')
    end.

Definition lift {A : Type} (r : result A) : M A := fun n => (r, n).

Notation "x <<- m ;; k" := (bind m (fun x => k))
  (at level 61, m at next level, right associativity).

(** The dict returned by [get_latest_info]. *)
Inductive info : Type :=
| InfoError (error fetched_at government : string)
| InfoItems (latest_items : list item) (fetched_at government : string).

(** One element of [results['governments']]. *)
Record government_result : Type := mkGovernment {
  gov_name : string;
  has_new_content : bool;
  new_items : list item
}.

(** The dict returned by [check_all]. *)
Record check_result : Type := mkCheckResult {
  checked_at : string;
  governments : list government_result
}.

Section Monitor.

Variable w : world.

Definition datetime_now : M string := fun n => (Ok (now_isoformat w n), S n).

(** [get_latest_info]: the [try] block and its [except Exception]. *)
Definition get_latest_info (s : scraper) : M info :=
  match session_get w (PAGE_URL s) with
  | Page soup =>
      let items := latest_items s soup in
      fetched_at <<- datetime_now ;;
      ret (InfoItems items fetched_at (name s))
  | RequestException e =>
      fetched_at <<- datetime_now ;;
      ret (InfoError e fetched_at (name s))
  end.

Definition check_for_new (s : scraper) (last_check_date : option string)
  : M (bool * list item) :=
  i <<- get_latest_info s ;;
  match i with
  | InfoError _ _ _ => ret (false, [])
  | InfoItems items _ _ => lift (evaluate s items last_check_date)
  end.

(** [self.scrapers] *)
Definition scrapers : list scraper :=
  [AlbertaLegislatureScraper; HouseOfCommonsScraper; StrathconaCountyScraper].

(** The [for scraper in self.scrapers] loop of [check_all]; [acc] is
    [results['governments']] so far. *)
Fixpoint check_each (l : list scraper) (last_check_date : option string)
         (acc : list government_result) : M (list government_result) :=
  match l with
  | [] => ret acc
  | s :: rest =>
      r <<- check_for_new s last_check_date ;;
      check_each rest last_check_date
                 (acc ++ [ {| gov_name := name s;
                              has_new_content := fst r;
                              new_items := snd r |} ])
  end.

Definition check_all (last_check_date : option string) : M check_result :=
  now <<- datetime_now ;;
  govs <<- check_each scrapers last_check_date [] ;;
  ret {| checked_at := now; governments := govs |}.

End Monitor.

(* ================================================================== *)
(** ** Notions the properties are stated with *)

(** The order of normalized dates: [(year, month, day)], lexicographic. *)
Definition date_ltb (a b : Z * Z * Z) : bool :=
  let '(y1, m1, d1) := a in
  let '(y2, m2, d2) := b in
  match y1 ?= y2 with
  | Lt => true
  | Gt => false
  | Eq => match m1 ?= m2 with
          | Lt => true
          | Gt => false
          | Eq => d1 <? d2
          end
  end.

(** A triple that [datetime(year, month, day)] accepts. *)
Definition valid_date (a : Z * Z * Z) : bool :=
  let '(y, m, d) := a in Datetime.check_date_fields y m d.

(** The date derived from a reference timestamp. *)
Definition date_of (r : Datetime.datetime) : Z * Z * Z :=
  (Datetime.year r, Datetime.month r, Datetime.day r).

(** Every item's normalized date is at least that of the item after it. *)
Fixpoint newest_first (s : scraper) (l : list item) : bool :=
  match l with
  | [] => true
  | a :: t =>
      (match t with
       | [] => true
       | b :: _ => negb (date_ltb (normalized_date s a) (normalized_date s b))
       end && newest_first s t)%bool
  end.

(** [l] is [l'] with some elements left out, the order kept. *)
Inductive subsequence {A : Type} : list A -> list A -> Prop :=
| sub_nil : subsequence [] []
| sub_skip : forall x l l', subsequence l l' -> subsequence l (x :: l')
| sub_keep : forall x l l', subsequence l l' -> subsequence (x :: l) (x :: l').

(** The item an evaluation against the reference date [r] keeps. *)
Definition newer_than (s : scraper) (r : Z * Z * Z) (it : item) : bool :=
  (valid_date (normalized_date s it) && date_ltb r (normalized_date s it))%bool.

(** The outcome of [check_all] without its [checked_at]. *)
Definition governments_of (r : result check_result) : result (list government_result) :=
  match r with
  | Ok c => Ok (governments c)
  | Raise e => Raise e
  end.

(** Position of a scraper in [self.scrapers]. *)
Definition position (s : scraper) : nat :=
  match s with
  | AlbertaLegislatureScraper => 0
  | HouseOfCommonsScraper => 1
  | StrathconaCountyScraper => 2
  end.

(** A reference [check_all] can work with: absent, or a string that
    [fromisoformat] reads. *)
Definition usable (last_check_date : option string) : Prop :=
  absent last_check_date = true \/
  exists r, Datetime.fromisoformat (the_string last_check_date) = Ok r.

(** *** The calendar, as the reference the month tables are compared with *)

Module Calendar.

Definition names : list string :=
  ["January"; "February"; "March"; "April"; "May"; "June"; "July";
   "August"; "September"; "October"; "November"; "December"].

(** Three-letter abbreviation of a month name. *)
Definition abbreviation (n : string) : string := String.substring 0 3 n.

Definition abbreviations : list string := map abbreviation names.

Fixpoint index_from (k : Z) (l : list string) (m : string) : option Z :=
  match l with
  | [] => None
  | n :: rest => if String.eqb n m then Some k else index_from (k + 1) rest m
  end.

(** The number of the month a spelling stands for in the calendar. *)
Definition month_of (m : string) : option Z :=
  match index_from 1 names m with
  | Some k => Some k
  | None => index_from 1 abbreviations m
  end.

(** The day number of the date a triple [(month_name, day, year)] stands
    for; [None] when the spelling is no month. *)
Definition ordinal (m : string) (d y : Z) : option Z :=
  match month_of m with
  | Some k => Some (Datetime.ymd2ord y k d)
  | None => None
  end.

End Calendar.

(** The spellings each [month_map] holds. *)
Definition spellings (s : scraper) : list string :=
  match s with
  | AlbertaLegislatureScraper => Calendar.abbreviations
  | HouseOfCommonsScraper => Calendar.names
  | StrathconaCountyScraper => Calendar.names ++ Calendar.abbreviations
  end.

(* ================================================================== *)
(** ** Sample pages and worlds *)

Module Sample.
Import Soup.

Definition text (s : string) : node := NavigableString true s.

Definition document (body : list node) : node :=
  Tag "[document]" [] [Tag "html" [] [Tag "body" [] body]].

(** [<li>label <a href="target">PDF</a></li>] *)
Definition transcript (label target : string) : node :=
  Tag "li" [] [text label; Tag "a" [("href", target)] [text "PDF"]].

(** [<div>label <a href="target">caption</a></div>] *)
Definition meeting (label caption target : string) : node :=
  Tag "div" [] [text label; Tag "a" [("href", target)] [text caption]].

Definition transcripts_page : node :=
  document [Tag "ul" [] [transcript "Feb 10, 2025, aft. " "/docs/20250210.pdf";
                         transcript "Jan 10, 2025, aft. " "/docs/20250110.pdf"]].

Definition meetings_page : node :=
  document [meeting "February 10, 2025 " "Council Agenda" "/Meeting?Id=2";
            meeting "January 10, 2025 " "Council Minutes" "/Meeting?Id=1"].

Definition hansard_page : node :=
  Tag "[document]" []
    [Tag "html" []
       [Tag "head" []
          [Tag "title" []
             [text "Debates (Hansard) No. 39 - October 20, 2025 (revised October 21, 2025)"]];
        Tag "body" [] [text "Sitting of October 22, 2025"]]].

(** The same title on a page with another body. *)
Definition hansard_page' : node :=
  Tag "[document]" []
    [Tag "html" []
       [Tag "head" []
          [Tag "title" []
             [text "Debates (Hansard) No. 39 - October 20, 2025 (revised October 21, 2025)"]];
        Tag "body" [] [Tag "p" [] [text "December 1, 2025"]]]].

Definition empty_page : node := document [].

(** A transcript whose relative link happens to begin with "http". *)
Definition odd_link_page : node :=
  document [transcript "Dec 10, 2025, aft. " "httpdocs/20251210.pdf"].

Definition clock (n : nat) : string :=
  match n with
  | O => "2025-11-03T08:00:00.000001"
  | _ => "2025-11-03T08:00:01.500000"
  end.

Definition clock' (n : nat) : string := "2025-11-03T09:30:00".

Definition pages (alberta commons strathcona : response) (u : string) : response :=
  if String.eqb u (PAGE_URL AlbertaLegislatureScraper) then alberta
  else if String.eqb u (PAGE_URL HouseOfCommonsScraper) then commons
  else strathcona.

Definition all_up : world :=
  mkWorld clock (pages (Page transcripts_page) (Page hansard_page) (Page meetings_page)).

Definition all_up_later : world :=
  mkWorld clock' (pages (Page transcripts_page) (Page hansard_page) (Page meetings_page)).

Definition alberta_down : world :=
  mkWorld clock (pages (RequestException "503 Server Error")
                       (Page hansard_page) (Page meetings_page)).

Definition alberta_quiet : world :=
  mkWorld clock (pages (Page empty_page) (Page hansard_page) (Page meetings_page)).

Definition agenda : item :=
  {| full_text := "Council Agenda"; pdf_url := None;
     url := Some "https://pub-strathcona.escribemeetings.com/Meeting?Id=7";
     month := "October"; day := 20; year := 2025;
     government := "Strathcona County Council" |}.

Definition minutes : item :=
  {| full_text := "Council Minutes"; pdf_url := None;
     url := Some "https://pub-strathcona.escribemeetings.com/Meeting?Id=6";
     month := "September"; day := 15; year := 2025;
     government := "Strathcona County Council" |}.

Definition sitting_dec : item :=
  {| full_text := "Dec 10, 2025, aft.";
     pdf_url := Some "https://www.assembly.ab.ca/docs/20251210.pdf";
     url := None; month := "Dec"; day := 10; year := 2025;
     government := "Alberta Legislature" |}.

Definition sitting_nov : item :=
  {| full_text := "Nov 5, 2025, aft.";
     pdf_url := Some "https://www.assembly.ab.ca/docs/20251105.pdf";
     url := None; month := "Nov"; day := 5; year := 2025;
     government := "Alberta Legislature" |}.

(** The Alberta table has no full month names. *)
Definition sitting_full_name : item :=
  {| full_text := "October 20, 2025";
     pdf_url := Some "https://www.assembly.ab.ca/docs/20251020.pdf";
     url := None; month := "October"; day := 20; year := 2025;
     government := "Alberta Legislature" |}.

(** An item dated February 30. *)
Definition impossible : item :=
  {| full_text := "Feb 30, 2026, aft."; pdf_url := Some "https://www.assembly.ab.ca/x.pdf";
     url := None; month := "Feb"; day := 30; year := 2026;
     government := "Alberta Legislature" |}.

End Sample.

(** *** What the sort guarantees *)

(** The key of [b] is not greater than the key of [a]. *)
Definition key_geb (a b : item) : bool := negb (key_gtb b a).

(** The two items have the same sort key. *)
Definition same_key (a b : item) : bool :=
  ((year a =? year b) && String.eqb (month a) (month b) && (day a =? day b))%bool.

(** *** Locators *)

(** A locator that begins with the base origin of its source or with an
    [http://] or [https://] scheme. *)
Definition absolute_url (s : scraper) (u : string) : bool :=
  (String.prefix (BASE_URL s) u || String.prefix "http://" u
   || String.prefix "https://" u)%bool.

(** What [full_url] guarantees: the base origin, or the four characters the
    code tests for. *)
Definition origin_or_http (s : scraper) (u : string) : bool :=
  (String.prefix (BASE_URL s) u || String.prefix "http" u)%bool.

Definition locator_satisfies (p : string -> bool) (it : item) : bool :=
  match locator it with
  | Some u => p u
  | None => false
  end.

(** The item [commons_items] builds from a title text and a match in it. *)
Definition commons_item (title_text : string) (g : Re.groups) : item :=
  {| full_text := title_text;
     pdf_url := None;
     url := Some (PAGE_URL HouseOfCommonsScraper);
     month := Re.g1 g;
     day := Str.int (Re.g2 g);
     year := Str.int (Re.g3 g);
     government := "House of Commons (Canada)" |}.

(** *** The date pattern, read as a regular expression *)






(** The test the loop of [check_for_new] applies to an item: kept when the
    [try] body runs through and the comparison holds. *)
Definition passes (s : scraper) (last_check : Datetime.datetime) (it : item) : bool :=
  match item_is_newer s last_check it with
  | Ok true => true
  | _ => false
  end.

(** What [check_for_new] returns, as a function of what the fetch gave. *)
Definition outcome (s : scraper) (resp : response) (last_check_date : option string)
  : result (bool * list item) :=
  match resp with
  | Page soup => evaluate s (latest_items s soup) last_check_date
  | RequestException _ => Ok (false, [])
  end.

(** The element [check_all] appends for a scraper. *)
Definition entry (s : scraper) (resp : response) (last_check_date : option string)
  : result government_result :=
  r <- outcome s resp last_check_date ;;
  Ok {| gov_name := name s; has_new_content := fst r; new_items := snd r |}.

(** [results['governments']] as a function of the three fetches. *)
Definition entries (fetched : scraper -> response) (last_check_date : option string)
  : result (list government_result) :=
  a <- entry AlbertaLegislatureScraper (fetched AlbertaLegislatureScraper) last_check_date ;;
  b <- entry HouseOfCommonsScraper (fetched HouseOfCommonsScraper) last_check_date ;;
  c <- entry StrathconaCountyScraper (fetched StrathconaCountyScraper) last_check_date ;;
  Ok [a; b; c].

(** What each scraper's fetch gives in a world. *)
Definition fetched (w : world) (s : scraper) : response := session_get w (PAGE_URL s).

(* ================================================================== *)
(** ** [datetime.isoformat] *)

Module Iso.

(** The character of a decimal digit [0 <= k <= 9]. *)
Definition digit (k : Z) : ascii := ascii_of_N (Z.to_N (48 + k)).

(** ["%0nd" % v] for [0 <= v < 10^n], the range of every field it is used
    on: [n] digits, the most significant first. *)
Fixpoint pad (n : nat) (v : Z) : string :=
  match n with
  | O => EmptyString
  | S n' => String (digit (v / 10 ^ Z.of_nat n')) (pad n' (v mod 10 ^ Z.of_nat n'))
  end.

(** [HH:MM:SS], and [.ffffff] when the microsecond is not 0. *)
Definition format_time (h mi s us : Z) : string :=
  pad 2 h ++ ":" ++ pad 2 mi ++ ":" ++ pad 2 s ++
  (if us =? 0 then "" else "." ++ pad 6 us).

(** The UTC offset of an aware value: sign, [HH:MM], then [:SS] when the
    offset has seconds and [.ffffff] when it has microseconds. *)
Definition format_offset (tz : option Z) : string :=
  match tz with
  | None => ""
  | Some off =>
      let sign := if off <? 0 then "-" else "+" in
      let a := Z.abs off in
      let hh := a / 3600000000 in
      let mm := (a mod 3600000000) / 60000000 in
      let ss := (a mod 3600000000) mod 60000000 in
      sign ++ pad 2 hh ++ ":" ++ pad 2 mm ++
      (if ss =? 0 then ""
       else ":" ++ pad 2 (ss / 1000000) ++
            (if ss mod 1000000 =? 0 then "" else "." ++ pad 6 (ss mod 1000000)))
  end.

(** [d.isoformat()].  Modelled from the library documentation:
    [YYYY-MM-DDTHH:MM:SS[.ffffff][+HH:MM[:SS[.ffffff]]]]. *)
Definition isoformat (d : Datetime.datetime) : string :=
  pad 4 (Datetime.year d) ++ "-" ++ pad 2 (Datetime.month d) ++ "-" ++
  pad 2 (Datetime.day d) ++ "T" ++
  format_time (Datetime.hour d) (Datetime.minute d) (Datetime.second d)
              (Datetime.microsecond d) ++
  format_offset (Datetime.tzinfo d).

(** A value the constructor [datetime(...)] accepts. *)
Definition valid (d : Datetime.datetime) : bool :=
  (Datetime.check_date_fields (Datetime.year d) (Datetime.month d) (Datetime.day d) &&
   Datetime.check_time_fields (Datetime.hour d) (Datetime.minute d)
                              (Datetime.second d) (Datetime.microsecond d) &&
   Datetime.check_tzinfo (Datetime.tzinfo d))%bool.

End Iso.

(* ================================================================== *)
(** ** [MultiGovernmentMonitor.generate_summary]

    The literals that hold characters outside ASCII are written as in the
    source file, in its UTF-8 encoding. *)


(** The newline character. *)
Definition nl : string := String (ascii_of_nat 10) EmptyString.

(** [s * n] *)
Fixpoint times (n : nat) (s : string) : string :=
  match n with
  | O => EmptyString
  | S n' => s ++ times n' s
  end.

(** [item.get('pdf_url', 'N/A')] and [item.get('url', 'N/A')]. *)
Definition get_pdf_url (it : item) : string :=
  match pdf_url it with Some u => u | None => "N/A" end.

Definition get_url (it : item) : string :=
  match url it with Some u => u | None => "N/A" end.

(** [any(gov['has_new_content'] for gov in results['governments'])] *)
Definition has_any (govs : list government_result) : bool :=
  existsb has_new_content govs.

Module Summary.

Definition header (generated : string) : list string :=
  ["=== LEGISLATIVE ACTIVITY UPDATE ===";
   "Generated: " ++ generated;
   times 50 "="].

(** The two lines appended for one item, the second with the link under
    [label]. *)
Definition item_lines (label : string) (link : item -> string) (it : item)
  : list string :=
  ["• " ++ full_text it; label ++ link it].

(** One of the three blocks: title, rule, and the items or the line that
    says there are none. *)
Definition block (title label nothing : string) (link : item -> string)
           (g : government_result) : list string :=
  [nl ++ title; times 50 "-"] ++
  (if has_new_content g
   then flat_map (item_lines label link) (new_items g)
   else [nothing]).

(** [generate_summary(results)]; [generated] is the text of
    [datetime.now().strftime('%B %d, %Y at %I:%M %p')].  [None] is the
    [IndexError] of [results['governments'][i]]. *)
Definition generate_summary (generated : string) (results : check_result)
  : option string :=
  let govs := governments results in
  if negb (has_any govs) then
    Some (String.concat nl
            (header generated ++ [nl ++ "No new legislative activity at any level."]))
  else
    match nth_error govs 0, nth_error govs 1, nth_error govs 2 with
    | Some alberta, Some canada, Some strathcona =>
        Some (String.concat nl
                (header generated ++
                 block "📍 ALBERTA LEGISLATURE" "  📄 PDF: " "  No new sessions"
                       get_pdf_url alberta ++
                 block "🍁 HOUSE OF COMMONS (CANADA)" "  🔗 URL: " "  No new debates"
                       get_url canada ++
                 block "🏘️  STRATHCONA COUNTY COUNCIL" "  🔗 URL: " "  No new meetings"
                       get_url strathcona ++
                 [nl ++ times 50 "=";
                  nl ++ "Note: Full content analysis requires document parsing."]))
    | _, _, _ => None
    end.


End Summary.

(* ================================================================== *)
(** ** [api/index.py] *)

Module Api.

(** The lines [generate_factual_summary] appends for one government. *)
Definition factual_block (title : string) (g : government_result) : list string :=
  if has_new_content g
  then [title] ++ map (fun it => "  • " ++ full_text it) (new_items g) ++ [""]
  else [].

(** [generate_factual_summary(results)]; [None] is the [IndexError]. *)
Definition generate_factual_summary (results : check_result) : option string :=
  let govs := governments results in
  match nth_error govs 0, nth_error govs 1, nth_error govs 2 with
  | Some alberta, Some canada, Some strathcona =>
      let summary_lines :=
        (factual_block "ALBERTA LEGISLATURE:" alberta ++
         factual_block "HOUSE OF COMMONS (CANADA):" canada ++
         factual_block "STRATHCONA COUNTY COUNCIL:" strathcona)%list in
      match summary_lines with
      | [] => Some "No new legislative activity."
      | _ => Some (String.concat nl
                     (summary_lines ++ ["[Full details require document parsing]"]))
      end
  | _, _, _ => None
  end.

(** [[gov['name'] for gov in results['governments'] if gov['has_new_content']]] *)
Definition active_levels (results : check_result) : list string :=
  map gov_name (filter has_new_content (governments results)).

Definition generate_neutral_analysis (results : check_result) : string :=
  match active_levels results with
  | [] => ""
  | levels =>
      "Legislative activity occurred at: " ++ String.concat ", " levels ++ ". " ++
      "Detailed policy analysis requires content extraction from documents."
  end.

Definition generate_strategic_analysis (results : check_result) : string :=
  match active_levels results with
  | [] => ""
  | _ => "Strategic implications and inter-governmental dynamics require " ++
         "detailed document analysis. Check full transcripts for context."
  end.

Record summary : Type := mkSummary {
  factual : string;
  neutral_analysis : string;
  strategic_analysis : string
}.

(** The JSON bodies of the two routes, by their ['status']. *)
Inductive response : Type :=
| new_content (checked_at : string) (governments : list government_result)
              (summary : summary)
| no_new_content (checked_at : string) (message : string)
| success (governments : list government_result) (summary : string).



End Api.

(** The entries a scraper builds from a page, before they are sorted and
    cut to five. *)
Definition candidates (s : scraper) (soup : Soup.node) : list item :=
  match s with
  | AlbertaLegislatureScraper => transcript_entries soup
  | HouseOfCommonsScraper => commons_items soup
  | StrathconaCountyScraper => meeting_items soup
  end.

(** *** The first check: no reference *)




(** A result in which only the council has something new. *)
Definition only_strathcona : check_result :=
  {| checked_at := "2025-11-03T08:00:00";
     governments :=
       [ {| gov_name := "Alberta Legislature"; has_new_content := false;
            new_items := [] |};
         {| gov_name := "House of Commons (Canada)"; has_new_content := false;
            new_items := [] |};
         {| gov_name := "Strathcona County Council"; has_new_content := true;
            new_items := [Sample.agenda] |} ] |}.

(** Case analysis on a month number known to lie in 1..12. *)
Ltac month_cases m :=
  let H := fresh in
  assert (H : m = 1 \/ m = 2 \/ m = 3 \/ m = 4 \/ m = 5 \/ m = 6 \/ m = 7 \/
              m = 8 \/ m = 9 \/ m = 10 \/ m = 11 \/ m = 12) by lia;
  repeat (destruct H as [H|H]); subst m.

(* ================================================================== *)
(** ** Lists, sorting and truncation *)

Lemma Forall_insert_desc (P : item -> Prop) (x : item) (l : list item) :
  P x -> Forall P l -> Forall P (insert_desc x l).
Proof.
  intros Hx Hl. induction Hl as [|y l Hy Hl IH]; simpl.
  - constructor; [exact Hx | constructor].
  - destruct (key_gtb y x).
    + constructor; assumption.
    + constructor; [exact Hx | constructor; assumption].
Qed.

Lemma Forall_sort_newest_first (P : item -> Prop) (l : list item) :
  Forall P l -> Forall P (sort_newest_first l).
Proof.
  induction 1 as [|x l Hx Hl IH]; simpl.
  - constructor.
  - apply Forall_insert_desc; assumption.
Qed.

Lemma Forall_firstn_of (A : Type) (P : A -> Prop) (n : nat) (l : list A) :
  Forall P l -> Forall P (firstn n l).
Proof.
  intros Hl. revert n. induction Hl as [|x l Hx Hl IH]; intros [|n]; simpl;
    try constructor; auto.
Qed.

Lemma length_firstn_le (A : Type) (n : nat) (l : list A) :
  (List.length (firstn n l) <= n)%nat.
Proof.
  rewrite length_firstn. apply Nat.le_min_l.
Qed.

Lemma subsequence_filter (A : Type) (f : A -> bool) (l : list A) :
  subsequence (filter f l) l.
Proof.
  induction l as [|x l IH]; simpl.
  - constructor.
  - destruct (f x); constructor; assumption.
Qed.

(* ================================================================== *)
(** ** The sort is the stable descending sort on the key *)

Lemma key_gtb_asym (a b : item) : key_gtb a b = true -> key_gtb b a = false.
Proof.
  unfold key_gtb.
  rewrite (Z.compare_antisym (year a) (year b)).
  rewrite (String.compare_antisym (month a) (month b)).
  destruct (year a ?= year b); simpl; try congruence.
  destruct (String.compare (month b) (month a)); simpl; try congruence.
  intros H. apply Z.ltb_lt in H. apply Z.ltb_ge. lia.
Qed.

Lemma key_gtb_not_same (k a b : item) :
  key_gtb a b = true -> same_key k b = true -> same_key k a = false.
Proof.
  unfold key_gtb, same_key. intros Hgt Hk.
  apply andb_prop in Hk. destruct Hk as [Hk Hd]. apply andb_prop in Hk.
  destruct Hk as [Hy Hm].
  apply Z.eqb_eq in Hy, Hd. apply String.eqb_eq in Hm.
  rewrite Hy, Hm, Hd.
  destruct (Z.compare_spec (year a) (year b)) as [Hya|Hya|Hya]; try discriminate.
  - rewrite <- Hya, Z.eqb_refl. simpl.
    destruct (String.compare (month a) (month b)) eqn:Hc; try discriminate.
    + apply String.compare_eq_iff in Hc. rewrite <- Hc, String.eqb_refl. simpl.
      apply Z.ltb_lt in Hgt. apply Z.eqb_neq. lia.
    + destruct (String.eqb_spec (month b) (month a)) as [He|_]; [|reflexivity].
      rewrite He in Hc.
      pose proof (String.compare_antisym (month a) (month a)) as Ha.
      rewrite Hc in Ha. discriminate.
  - replace (year b =? year a) with false by (symmetry; apply Z.eqb_neq; lia).
    reflexivity.
Qed.

Lemma insert_desc_perm (x : item) (l : list item) :
  Permutation (x :: l) (insert_desc x l).
Proof.
  induction l as [|y l IH]; simpl.
  - apply Permutation_refl.
  - destruct (key_gtb y x).
    + apply perm_trans with (y :: x :: l); [apply perm_swap|].
      apply perm_skip, IH.
    + apply Permutation_refl.
Qed.

Lemma sort_newest_first_perm (l : list item) :
  Permutation l (sort_newest_first l).
Proof.
  induction l as [|x l IH]; simpl.
  - apply perm_nil.
  - apply perm_trans with (x :: sort_newest_first l);
      [apply perm_skip, IH | apply insert_desc_perm].
Qed.

Lemma insert_desc_sorted (x : item) (l : list item) :
  Sorted (fun a b => key_geb a b = true) l ->
  Sorted (fun a b => key_geb a b = true) (insert_desc x l).
Proof.
  induction 1 as [|y l Hl IH Hhd]; simpl.
  - repeat constructor.
  - destruct (key_gtb y x) eqn:Hyx.
    + constructor; [exact IH|].
      destruct l as [|z l]; simpl.
      * constructor. unfold key_geb. rewrite (key_gtb_asym _ _ Hyx). reflexivity.
      * destruct (key_gtb z x).
        -- inversion Hhd; subst. constructor. assumption.
        -- constructor. unfold key_geb. rewrite (key_gtb_asym _ _ Hyx). reflexivity.
    + constructor; [constructor; assumption|].
      constructor. unfold key_geb. rewrite Hyx. reflexivity.
Qed.

(** The sorted list is descending in the key (year, month as spelled, day). *)
Lemma sort_newest_first_sorted (l : list item) :
  Sorted (fun a b => key_geb a b = true) (sort_newest_first l).
Proof.
  induction l as [|x l IH]; simpl.
  - constructor.
  - apply insert_desc_sorted, IH.
Qed.

Lemma insert_desc_stable (k x : item) (l : list item) :
  filter (same_key k) (insert_desc x l) = filter (same_key k) (x :: l).
Proof.
  induction l as [|y l IH]; [reflexivity|].
  cbn [insert_desc]. destruct (key_gtb y x) eqn:Hyx; [|reflexivity].
  cbn [filter] in *. rewrite IH.
  destruct (same_key k x) eqn:Hx; [|reflexivity].
  rewrite (key_gtb_not_same k _ _ Hyx Hx). reflexivity.
Qed.

(** Items with one and the same key keep the order they had. *)
Lemma sort_newest_first_stable (k : item) (l : list item) :
  filter (same_key k) (sort_newest_first l) = filter (same_key k) l.
Proof.
  induction l as [|x l IH]; [reflexivity|].
  cbn [sort_newest_first]. rewrite insert_desc_stable.
  cbn [filter]. rewrite IH. reflexivity.
Qed.

(* ================================================================== *)
(** ** Strings and the date pattern *)

Lemma prefix_append (a b : string) : String.prefix a (a ++ b) = true.
Proof.
  induction a as [|c a IH]; simpl.
  - destruct b; reflexivity.
  - destruct (ascii_dec c c) as [_|Hc]; [exact IH | contradiction].
Qed.











(* ================================================================== *)
(** ** Extraction *)

Lemma full_url_origin_or_http (s : scraper) (href : string) :
  origin_or_http s (full_url s href) = true.
Proof.
  unfold origin_or_http, full_url, Str.startswith.
  destruct (String.prefix "http" href) eqn:Hp; simpl.
  - rewrite Hp. apply orb_true_r.
  - rewrite prefix_append. reflexivity.
Qed.

Lemma transcript_entries_located (soup : Soup.node) :
  Forall (fun it => locator_satisfies (origin_or_http AlbertaLegislatureScraper) it = true)
         (transcript_entries soup).
Proof.
  unfold transcript_entries. apply Forall_flat_map, Forall_forall.
  intros [parent element] _. unfold alberta_entry, pdf_link; simpl.
  destruct (List.find _ _); [|constructor].
  destruct (Str.truthy _); [|constructor].
  destruct (Re.search element); [|constructor].
  constructor; [|constructor].
  unfold locator_satisfies, locator; simpl. apply full_url_origin_or_http.
Qed.

Lemma meeting_items_located (soup : Soup.node) :
  Forall (fun it => locator_satisfies (origin_or_http StrathconaCountyScraper) it = true)
         (meeting_items soup).
Proof.
  unfold meeting_items. apply Forall_flat_map, Forall_forall.
  intros [parent link] _. unfold strathcona_entry; simpl.
  destruct (is_council_link _); [|constructor].
  destruct (Re.search _); [|constructor].
  constructor; [|constructor].
  unfold locator_satisfies, locator; simpl. apply full_url_origin_or_http.
Qed.

Lemma commons_items_located (soup : Soup.node) :
  Forall (fun it => locator_satisfies (origin_or_http HouseOfCommonsScraper) it = true)
         (commons_items soup).
Proof.
  unfold commons_items.
  destruct (Soup.find_title soup); [|constructor].
  destruct (Re.search _); [|constructor].
  constructor; [|constructor].
  reflexivity.
Qed.

Lemma commons_items_length (soup : Soup.node) :
  (List.length (commons_items soup) <= 1)%nat.
Proof.
  unfold commons_items.
  destruct (Soup.find_title soup); simpl; [|lia].
  destruct (Re.search _); simpl; lia.
Qed.

Lemma latest_items_length (s : scraper) (soup : Soup.node) :
  (List.length (latest_items s soup) <= 5)%nat.
Proof.
  destruct s; unfold latest_items.
  - apply length_firstn_le.
  - pose proof (commons_items_length soup). lia.
  - apply length_firstn_le.
Qed.

(** C1, on the code: the Alberta and Strathcona extractions order their
    items by the tuple (year, month as spelled, day), so on a page that lists
    February 10 and January 10 of one year the January item comes first
    ("Jan" > "Feb" and "January" > "February" as strings): the returned
    sequence is not descending by normalized date. *)
Theorem C1_extraction_orders_by_month_spelling :
  map (normalized_date AlbertaLegislatureScraper)
      (latest_items AlbertaLegislatureScraper Sample.transcripts_page)
    = [(2025, 1, 10); (2025, 2, 10)] /\
  newest_first AlbertaLegislatureScraper
      (latest_items AlbertaLegislatureScraper Sample.transcripts_page) = false /\
  map (normalized_date StrathconaCountyScraper)
      (latest_items StrathconaCountyScraper Sample.meetings_page)
    = [(2025, 1, 10); (2025, 2, 10)] /\
  newest_first StrathconaCountyScraper
      (latest_items StrathconaCountyScraper Sample.meetings_page) = false.
Proof.
  repeat split; vm_compute; reflexivity.
Qed.


(** A title that holds two dates, on two pages with different bodies: the
    item carries the first date of the title, and the body plays no part. *)
Example commons_takes_first_date_of_title :
  map (normalized_date HouseOfCommonsScraper)
      (latest_items HouseOfCommonsScraper Sample.hansard_page) = [(2025, 10, 20)] /\
  latest_items HouseOfCommonsScraper Sample.hansard_page'
  = latest_items HouseOfCommonsScraper Sample.hansard_page.
Proof.
  split; vm_compute; reflexivity.
Qed.

(** C8, the claim as stated fails: a relative link that begins with the
    letters "http" is returned as it stands, so the locator begins neither
    with the base origin nor with an [http://] or [https://] scheme. *)
Lemma C8_relative_link_returned_unresolved :
  map locator (latest_items AlbertaLegislatureScraper Sample.odd_link_page)
    = [Some "httpdocs/20251210.pdf"] /\
  forallb (locator_satisfies (absolute_url AlbertaLegislatureScraper))
          (latest_items AlbertaLegislatureScraper Sample.odd_link_page) = false.
Proof.
  split; vm_compute; reflexivity.
Qed.

(** C8, amended: every item returned by an extraction has a locator, and the
    locator begins with the base origin of its source or with the four
    characters "http". *)
Theorem C8_locator_origin_or_http (s : scraper) (soup : Soup.node) :
  Forall (fun it => locator_satisfies (origin_or_http s) it = true)
         (latest_items s soup).
Proof.
  destruct s; unfold latest_items.
  - apply Forall_firstn_of, Forall_sort_newest_first, transcript_entries_located.
  - apply commons_items_located.
  - apply Forall_firstn_of, Forall_sort_newest_first, meeting_items_located.
Qed.

(* ================================================================== *)
(** ** Dates *)

Lemma fromisoformat_fields (r : string) (d : Datetime.datetime) :
  Datetime.fromisoformat r = Ok d ->
  Datetime.check_date_fields (Datetime.year d) (Datetime.month d) (Datetime.day d) = true /\
  Datetime.check_time_fields (Datetime.hour d) (Datetime.minute d)
                             (Datetime.second d) (Datetime.microsecond d) = true.
Proof.
  unfold Datetime.fromisoformat.
  destruct (Datetime.parse_isoformat r) as [[[[[y m] dd] [[[h mi] sec] us]] tz]|];
    [|discriminate].
  unfold Datetime.new.
  destruct (Datetime.check_date_fields y m dd) eqn:Hd; [|discriminate].
  destruct (Datetime.check_time_fields h mi sec us) eqn:Ht; [|discriminate].
  destruct (Datetime.check_tzinfo tz); [|discriminate].
  simpl. intros [= <-]. simpl. split; assumption.
Qed.

Lemma fromisoformat_nonempty (r : string) (d : Datetime.datetime) :
  Datetime.fromisoformat r = Ok d -> absent (Some r) = false.
Proof.
  destruct r; [discriminate | reflexivity].
Qed.

(** Against a naive timestamp whose time of day is not negative, a midnight
    value is greater exactly when its date is. *)
Lemma fields_gtb_midnight (y m d : Z) (r : Datetime.datetime) :
  Datetime.check_time_fields (Datetime.hour r) (Datetime.minute r)
                             (Datetime.second r) (Datetime.microsecond r) = true ->
  Datetime.fields_gtb (Datetime.mkDatetime y m d 0 0 0 0 None) r
  = date_ltb (date_of r) (y, m, d).
Proof.
  destruct r as [ry rm rd rh rmi rs rus rtz].
  unfold Datetime.check_time_fields, Datetime.fields_gtb, date_ltb, date_of.
  cbn [Datetime.year Datetime.month Datetime.day Datetime.hour Datetime.minute
       Datetime.second Datetime.microsecond].
  intros H.
  repeat (apply andb_prop in H; destruct H as [H ?]).
  repeat match goal with
         | [ H : (_ <=? _) = true |- _ ] => apply Z.leb_le in H
         end.
  repeat match goal with
         | [ |- context [?a ?= ?b] ] => destruct (Z.compare_spec a b)
         end;
    repeat match goal with
           | [ |- context [?a <? ?b] ] => destruct (Z.ltb_spec a b)
           end;
    try reflexivity; lia.
Qed.

Lemma of_ymd_checked (y m d : Z) :
  Datetime.of_ymd y m d
  = if Datetime.check_date_fields y m d
    then Ok (Datetime.mkDatetime y m d 0 0 0 0 None)
    else Raise ValueError.
Proof.
  unfold Datetime.of_ymd, Datetime.new.
  destruct (Datetime.check_date_fields y m d); reflexivity.
Qed.

Lemma passes_naive (s : scraper) (r : Datetime.datetime) (it : item) :
  Datetime.check_time_fields (Datetime.hour r) (Datetime.minute r)
                             (Datetime.second r) (Datetime.microsecond r) = true ->
  Datetime.tzinfo r = None ->
  passes s r it = newer_than s (date_of r) it.
Proof.
  intros Ht Hz.
  unfold passes, item_is_newer, newer_than, normalized_date, normalize, valid_date.
  rewrite of_ymd_checked.
  destruct (Datetime.check_date_fields _ _ _); [|reflexivity].
  cbn [rbind andb]. unfold Datetime.gt. cbn [Datetime.tzinfo]. rewrite Hz.
  rewrite (fields_gtb_midnight _ _ _ r Ht).
  destruct (date_ltb _ _); reflexivity.
Qed.

Lemma passes_aware (s : scraper) (r : Datetime.datetime) (it : item) (off : Z) :
  Datetime.tzinfo r = Some off -> passes s r it = false.
Proof.
  intros Hz.
  unfold passes, item_is_newer. rewrite of_ymd_checked.
  destruct (Datetime.check_date_fields _ _ _); [|reflexivity].
  cbn [rbind]. unfold Datetime.gt. cbn [Datetime.tzinfo]. rewrite Hz. reflexivity.
Qed.

Lemma passes_invalid (s : scraper) (r : Datetime.datetime) (it : item) (e : exn) :
  Datetime.of_ymd (year it) (month_number s (month it)) (day it) = Raise e ->
  passes s r it = false.
Proof.
  intros H. unfold passes, item_is_newer. rewrite H. reflexivity.
Qed.

(* ================================================================== *)
(** ** The calendar *)

Lemma days_before_year_succ (y : Z) :
  Datetime.days_before_year (y + 1)
  = Datetime.days_before_year y + 365 + (if Datetime.is_leap y then 1 else 0).
Proof.
  unfold Datetime.days_before_year, Datetime.is_leap.
  replace (y + 1 - 1) with y by lia.
  destruct (y mod 4 =? 0) eqn:H4; destruct (y mod 100 =? 0) eqn:H100;
    destruct (y mod 400 =? 0) eqn:H400; cbn [andb orb negb];
    rewrite ?Z.eqb_eq, ?Z.eqb_neq in *;
    Z.div_mod_to_equations; lia.
Qed.

Lemma days_before_year_mono (y1 y2 : Z) :
  y1 <= y2 -> Datetime.days_before_year y1 <= Datetime.days_before_year y2.
Proof.
  unfold Datetime.days_before_year. intros H.
  Z.div_mod_to_equations. lia.
Qed.

Lemma check_date_fields_bounds (y m d : Z) :
  Datetime.check_date_fields y m d = true ->
  1 <= m <= 12 /\ 1 <= d <= Datetime.days_in_month y m.
Proof.
  unfold Datetime.check_date_fields. intros H.
  repeat (apply andb_prop in H; destruct H as [H ?]).
  repeat match goal with
         | [ H : (_ <=? _) = true |- _ ] => apply Z.leb_le in H
         end.
  lia.
Qed.

(** A month ends before the next one begins. *)
Lemma days_before_month_next (y m1 m2 : Z) :
  1 <= m1 -> m1 < m2 -> m2 <= 12 ->
  Datetime.days_before_month y m1 + Datetime.days_in_month y m1
  <= Datetime.days_before_month y m2.
Proof.
  intros H1 H12 H2. unfold Datetime.days_before_month, Datetime.days_in_month.
  month_cases m1; month_cases m2; try lia;
    destruct (Datetime.is_leap y); cbn; lia.
Qed.

(** The last day of December is day 365 or 366 of the year. *)
Lemma days_before_month_year_end (y m : Z) :
  1 <= m <= 12 ->
  Datetime.days_before_month y m + Datetime.days_in_month y m
  <= 365 + (if Datetime.is_leap y then 1 else 0).
Proof.
  intros H. unfold Datetime.days_before_month, Datetime.days_in_month.
  month_cases m; destruct (Datetime.is_leap y); cbn; lia.
Qed.

Lemma days_before_month_nonneg (y m : Z) : 0 <= Datetime.days_before_month y m.
Proof.
  unfold Datetime.days_before_month.
  destruct ((2 <? m) && Datetime.is_leap y)%bool;
    destruct m as [|p|p]; try lia;
    repeat (destruct p as [p|p|]; try lia).
Qed.

(** On valid dates the (year, month, day) order is the order of the days. *)
Lemma ymd2ord_increasing (y1 m1 d1 y2 m2 d2 : Z) :
  Datetime.check_date_fields y1 m1 d1 = true ->
  Datetime.check_date_fields y2 m2 d2 = true ->
  date_ltb (y1, m1, d1) (y2, m2, d2) = true ->
  Datetime.ymd2ord y1 m1 d1 < Datetime.ymd2ord y2 m2 d2.
Proof.
  intros V1 V2. apply check_date_fields_bounds in V1, V2.
  unfold date_ltb, Datetime.ymd2ord.
  destruct (Z.compare_spec y1 y2) as [->|Hy|Hy]; [| |discriminate].
  - destruct (Z.compare_spec m1 m2) as [->|Hm|Hm]; [| |discriminate].
    + intros H. apply Z.ltb_lt in H. lia.
    + intros _. pose proof (@days_before_month_next y2 m1 m2). lia.
  - intros _.
    pose proof (@days_before_month_year_end y1 m1).
    pose proof (days_before_year_succ y1).
    pose proof (@days_before_year_mono (y1 + 1) y2).
    pose proof (days_before_month_nonneg y2 m2).
    lia.
Qed.

Lemma date_ltb_irrefl (a : Z * Z * Z) : date_ltb a a = false.
Proof.
  destruct a as [[y m] d]. unfold date_ltb.
  rewrite !Z.compare_refl. apply Z.ltb_irrefl.
Qed.

Lemma date_ltb_total (a b : Z * Z * Z) :
  date_ltb a b = true \/ a = b \/ date_ltb b a = true.
Proof.
  destruct a as [[y1 m1] d1], b as [[y2 m2] d2]. unfold date_ltb.
  rewrite (Z.compare_antisym y1 y2), (Z.compare_antisym m1 m2).
  destruct (Z.compare_spec y1 y2) as [->|?|?]; simpl; auto.
  destruct (Z.compare_spec m1 m2) as [->|?|?]; simpl; auto.
  destruct (Z.lt_total d1 d2) as [H|[->|H]].
  - left. apply Z.ltb_lt, H.
  - right. left. reflexivity.
  - right. right. apply Z.ltb_lt, H.
Qed.

(* ================================================================== *)
(** ** The month tables *)

Lemma dict_mem_keys (t : list (string * Z)) (m : string) :
  dict_mem t m = true <-> In m (map fst t).
Proof.
  induction t as [|[k v] t IH]; simpl.
  - split; [discriminate | contradiction].
  - rewrite orb_true_iff, IH, String.eqb_eq. reflexivity.
Qed.

(** A property shared by all entries of a table holds of what [get] finds. *)
Lemma dict_get_entry (P : string -> Z -> Prop) (t : list (string * Z))
      (m : string) (default : Z) :
  Forall (fun kv => P (fst kv) (snd kv)) t ->
  dict_mem t m = true ->
  P m (dict_get t m default).
Proof.
  induction 1 as [|[k v] t Hkv _ IH]; simpl; [discriminate|].
  destruct (String.eqb_spec k m) as [<-|_]; simpl; [intros _; exact Hkv | exact IH].
Qed.

Lemma month_map_spellings (s : scraper) (m : string) :
  dict_mem (month_map s) m = true <-> In m (spellings s).
Proof.
  rewrite dict_mem_keys.
  destruct s; cbv [month_map spellings Calendar.names Calendar.abbreviations
                   Calendar.abbreviation map fst app String.substring];
    simpl; tauto.
Qed.

(** Each table gives a spelling the number the calendar gives it. *)
Lemma month_map_calendar (s : scraper) (m : string) :
  dict_mem (month_map s) m = true ->
  Calendar.month_of m = Some (month_number s m).
Proof.
  unfold month_number.
  apply (dict_get_entry (fun k v => Calendar.month_of k = Some v)).
  destruct s; repeat constructor.
Qed.

(** C6, the claim as stated fails: the tables do not all accept both
    spellings.  The Alberta table has no "October" and the House of Commons
    table no "Oct"; so the valid triple (October, 20, 2025) is normalized by
    the Alberta table to January 20, below (Sep, 15, 2025), against the
    calendar. *)
Lemma C6_tables_do_not_accept_both_spellings :
  dict_mem (month_map AlbertaLegislatureScraper) "October" = false /\
  dict_mem (month_map HouseOfCommonsScraper) "Oct" = false /\
  normalize AlbertaLegislatureScraper "October" 20 2025 = (2025, 1, 20) /\
  date_ltb (normalize AlbertaLegislatureScraper "October" 20 2025)
           (normalize AlbertaLegislatureScraper "Sep" 15 2025) = true /\
  exists o1 o2,
    Calendar.ordinal "October" 20 2025 = Some o1 /\
    Calendar.ordinal "Sep" 15 2025 = Some o2 /\
    o2 < o1.
Proof.
  repeat split. do 2 eexists. repeat split.
Qed.

(** C6, amended: the Alberta table holds the three-letter abbreviations, the
    House of Commons table the full month names and the Strathcona table
    both, matched with case; for valid triples whose month spelling is in the
    table of the source, normalization is injective and order-preserving
    with respect to the calendar: two triples have the same normalized date
    exactly when they name the same day, and the (year, month, day) order of
    their normalized dates is the order of their days. *)
Theorem C6_normalize_follows_calendar
        (s : scraper) (m1 m2 : string) (d1 y1 d2 y2 : Z) :
  dict_mem (month_map s) m1 = true ->
  dict_mem (month_map s) m2 = true ->
  valid_date (normalize s m1 d1 y1) = true ->
  valid_date (normalize s m2 d2 y2) = true ->
  (forall m, dict_mem (month_map s) m = true <-> In m (spellings s)) /\
  exists o1 o2,
    Calendar.ordinal m1 d1 y1 = Some o1 /\
    Calendar.ordinal m2 d2 y2 = Some o2 /\
    (normalize s m1 d1 y1 = normalize s m2 d2 y2 <-> o1 = o2) /\
    (date_ltb (normalize s m1 d1 y1) (normalize s m2 d2 y2) = true <-> o1 < o2).
Proof.
  intros R1 R2 V1 V2. split; [apply month_map_spellings|].
  unfold Calendar.ordinal.
  rewrite (month_map_calendar s m1 R1), (month_map_calendar s m2 R2).
  do 2 eexists. split; [reflexivity|]. split; [reflexivity|].
  unfold normalize, valid_date in *.
  set (k1 := month_number s m1) in *. set (k2 := month_number s m2) in *.
  pose proof (@ymd2ord_increasing y1 k1 d1 y2 k2 d2 V1 V2) as Hlt.
  pose proof (@ymd2ord_increasing y2 k2 d2 y1 k1 d1 V2 V1) as Hgt.
  destruct (date_ltb_total (y1, k1, d1) (y2, k2, d2)) as [H|[H|H]].
  - specialize (Hlt H). split; split; intros H'; try lia; try assumption.
    rewrite H' in H. rewrite date_ltb_irrefl in H. discriminate.
  - injection H as -> -> ->. rewrite date_ltb_irrefl.
    split; split; intros H'; try reflexivity; try discriminate; lia.
  - specialize (Hgt H). split; split; intros H'; try lia.
    + rewrite H' in H. rewrite date_ltb_irrefl in H. discriminate.
    + specialize (Hlt H'). lia.
Qed.

Lemma C6_normalize_follows_calendar_witness :
  (forall m, dict_mem (month_map StrathconaCountyScraper) m = true
             <-> In m (spellings StrathconaCountyScraper)) /\
  exists o1 o2,
    Calendar.ordinal "Sep" 15 2025 = Some o1 /\
    Calendar.ordinal "October" 20 2025 = Some o2 /\
    (normalize StrathconaCountyScraper "Sep" 15 2025
     = normalize StrathconaCountyScraper "October" 20 2025 <-> o1 = o2) /\
    (date_ltb (normalize StrathconaCountyScraper "Sep" 15 2025)
              (normalize StrathconaCountyScraper "October" 20 2025) = true <-> o1 < o2).
Proof.
  exact (@C6_normalize_follows_calendar StrathconaCountyScraper
           "Sep" "October" 15 2025 20 2025 eq_refl eq_refl eq_refl eq_refl).
Defined.

(* ================================================================== *)
(** ** Evaluation *)

Lemma collect_new_filter (s : scraper) (r : Datetime.datetime) (items acc : list item) :
  collect_new s r items acc = (acc ++ filter (passes s r) items)%list.
Proof.
  revert acc. induction items as [|it items IH]; intros acc; simpl.
  - symmetry. apply app_nil_r.
  - unfold passes at 1.
    destruct (item_is_newer s r it) as [[|]|e]; rewrite IH.
    + rewrite <- app_assoc. reflexivity.
    + reflexivity.
    + reflexivity.
Qed.

Lemma evaluate_present (s : scraper) (items : list item) (r : string)
      (d : Datetime.datetime) :
  Datetime.fromisoformat r = Ok d ->
  evaluate s items (Some r)
  = Ok ((0 <? List.length (filter (passes s d) items))%nat, filter (passes s d) items).
Proof.
  intros Hr. unfold evaluate.
  rewrite (fromisoformat_nonempty _ Hr). simpl the_string. rewrite Hr. simpl.
  rewrite collect_new_filter. reflexivity.
Qed.

(** Against a reference with a UTC offset every comparison raises, and
    nothing is new. *)
Lemma evaluate_aware_reference (s : scraper) (items : list item) (r : string)
      (d : Datetime.datetime) (off : Z) :
  Datetime.fromisoformat r = Ok d ->
  Datetime.tzinfo d = Some off ->
  evaluate s items (Some r) = Ok (false, []).
Proof.
  intros Hr Hz. rewrite (evaluate_present s items r Hr).
  assert (H : filter (passes s d) items = []).
  { induction items as [|it items IH]; [reflexivity|].
    simpl. rewrite (passes_aware s d it Hz). exact IH. }
  rewrite H. reflexivity.
Qed.

Lemma has_new_iff (A : Type) (l : list A) :
  (0 <? List.length l)%nat = true <-> l <> [].
Proof.
  destruct l; simpl; split; intros H; try reflexivity; try discriminate.
  contradiction.
Qed.

Lemma filter_drop_failing (A : Type) (f : A -> bool) (before after : list A) (x : A) :
  f x = false ->
  filter f (before ++ x :: after)%list = filter f (before ++ after)%list.
Proof.
  intros Hx. rewrite !filter_app. simpl. rewrite Hx. reflexivity.
Qed.

(** C2, the claim as stated fails.  An item dated February 30, 2026 has a
    normalized date greater than that of the reference 2025-10-01, yet it is
    not returned: [datetime(2026, 2, 30)] raises and the item is skipped.
    And against a reference that carries a UTC offset no item is returned,
    whatever its date: comparing the naive item date with it raises. *)
Lemma C2_later_item_not_returned :
  (exists r,
     Datetime.fromisoformat "2025-10-01T00:00:00" = Ok r /\
     date_ltb (date_of r)
              (normalized_date AlbertaLegislatureScraper Sample.impossible) = true /\
     evaluate AlbertaLegislatureScraper [Sample.impossible]
              (Some "2025-10-01T00:00:00") = Ok (false, [])) /\
  (exists r,
     Datetime.fromisoformat "2025-10-01T00:00:00+00:00" = Ok r /\
     date_ltb (date_of r)
              (normalized_date StrathconaCountyScraper Sample.agenda) = true /\
     evaluate StrathconaCountyScraper [Sample.agenda; Sample.minutes]
              (Some "2025-10-01T00:00:00+00:00") = Ok (false, [])).
Proof.
  split; eexists; (split; [vm_compute; reflexivity|]); split; vm_compute; reflexivity.
Qed.

(** C2, amended: for every item list and every present reference timestamp
    without a UTC offset, the evaluation returns as new_items exactly the
    items whose normalized date is a valid calendar date and is strictly
    greater, in the (year, month, day) order, than the date of the
    reference; they come in the order of the input list, and has_new tells
    whether there is one. *)
Theorem C2_evaluate_against_reference (s : scraper) (items : list item)
        (r : string) (d : Datetime.datetime) :
  Datetime.fromisoformat r = Ok d ->
  Datetime.tzinfo d = None ->
  evaluate s items (Some r)
  = Ok ((0 <? List.length (filter (newer_than s (date_of d)) items))%nat,
        filter (newer_than s (date_of d)) items).
Proof.
  intros Hr Hz. rewrite (evaluate_present s items r Hr).
  destruct (fromisoformat_fields r Hr) as [_ Ht].
  rewrite (filter_ext (passes s d) (newer_than s (date_of d))
             (fun it => passes_naive s d it Ht Hz)).
  reflexivity.
Qed.

(** The example of the specification: the agenda of October 20 is new
    against the reference October 1, the minutes of September 15 are not. *)
Lemma C2_evaluate_against_reference_witness :
  evaluate StrathconaCountyScraper [Sample.agenda; Sample.minutes]
           (Some "2025-10-01T00:00:00")
  = Ok (true, [Sample.agenda]).
Proof.
  exact (@C2_evaluate_against_reference StrathconaCountyScraper
           [Sample.agenda; Sample.minutes] "2025-10-01T00:00:00"
           (Datetime.mkDatetime 2025 10 1 0 0 0 0 None) eq_refl eq_refl).
Defined.

(** C3, on the code: without a reference the evaluation returns the first
    item alone when there is one, and has_new is [True] whatever the list:
    for the empty list the answer is [(True, [])], not [(False, [])].  The
    empty string counts as no reference. *)
Theorem C3_no_reference_always_has_new (s : scraper) (x : item) (items : list item) :
  evaluate s (x :: items) None = Ok (true, [x]) /\
  evaluate s [] None = Ok (true, []) /\
  evaluate s [] (Some "") = Ok (true, []) /\
  fst (check_for_new Sample.alberta_quiet AlbertaLegislatureScraper None 0%nat)
  = Ok (true, []).
Proof.
  repeat split.
Qed.

(** C5: an item whose month name is not in the table of its source is
    normalized with month 1; and an item for which [datetime(year, month,
    day)] raises is left out of new_items while the evaluation goes on: the
    answer is the one for the list without that item. *)
Theorem C5_unknown_month_and_invalid_date
        (s : scraper) (unknown x : item) (before after : list item)
        (r : string) (d : Datetime.datetime) (e : exn) :
  dict_mem (month_map s) (month unknown) = false ->
  Datetime.fromisoformat r = Ok d ->
  Datetime.of_ymd (year x) (month_number s (month x)) (day x) = Raise e ->
  normalized_date s unknown = (year unknown, 1, day unknown) /\
  exists has_new kept,
    evaluate s (before ++ x :: after) (Some r) = Ok (has_new, kept) /\
    ~ In x kept /\
    evaluate s (before ++ after) (Some r) = Ok (has_new, kept).
Proof.
  intros Hm Hr Hx. split.
  - unfold normalized_date, normalize, month_number. f_equal. f_equal.
    revert Hm. generalize (month_map s). intros t.
    induction t as [|[k v] t IH]; simpl; [reflexivity|].
    destruct (String.eqb k (month unknown)); simpl; [discriminate | exact IH].
  - pose proof (passes_invalid s d x Hx) as Hp.
    do 2 eexists. rewrite !(evaluate_present s _ r Hr).
    rewrite (filter_drop_failing (passes s d) before after x Hp).
    split; [reflexivity|]. split; [|reflexivity].
    intros Hin. apply filter_In in Hin. destruct Hin as [_ Hin]. congruence.
Qed.

Lemma C5_unknown_month_and_invalid_date_witness :
  normalized_date AlbertaLegislatureScraper Sample.sitting_full_name = (2025, 1, 20) /\
  exists has_new kept,
    evaluate AlbertaLegislatureScraper
             ([Sample.sitting_dec] ++ Sample.impossible :: [Sample.sitting_nov])
             (Some "2025-10-01T00:00:00") = Ok (has_new, kept) /\
    ~ In Sample.impossible kept /\
    evaluate AlbertaLegislatureScraper ([Sample.sitting_dec] ++ [Sample.sitting_nov])
             (Some "2025-10-01T00:00:00") = Ok (has_new, kept).
Proof.
  exact (@C5_unknown_month_and_invalid_date AlbertaLegislatureScraper
           Sample.sitting_full_name Sample.impossible
           [Sample.sitting_dec] [Sample.sitting_nov]
           "2025-10-01T00:00:00"
           (Datetime.mkDatetime 2025 10 1 0 0 0 0 None)
           ValueError eq_refl eq_refl eq_refl).
Defined.

(* ================================================================== *)
(** ** The monitor *)

Lemma check_for_new_outcome (w : world) (s : scraper) (ref : option string) (n : nat) :
  check_for_new w s ref n = (outcome s (fetched w s) ref, S n).
Proof.
  unfold check_for_new, get_latest_info, outcome, fetched, bind, datetime_now, ret, lift.
  destruct (session_get w (PAGE_URL s)); reflexivity.
Qed.

Lemma check_all_entries (w : world) (ref : option string) (n : nat) :
  governments_of (fst (check_all w ref n)) = entries (fetched w) ref.
Proof.
  unfold check_all, scrapers, entries, entry, bind, datetime_now.
  cbn [check_each]. unfold bind. rewrite check_for_new_outcome.
  destruct (outcome AlbertaLegislatureScraper _ ref) as [a|]; [|reflexivity].
  cbn beta iota. rewrite check_for_new_outcome.
  destruct (outcome HouseOfCommonsScraper _ ref) as [b|]; [|reflexivity].
  cbn beta iota. rewrite check_for_new_outcome.
  destruct (outcome StrathconaCountyScraper _ ref) as [c|]; reflexivity.
Qed.

Lemma governments_of_ok (r : result check_result) (l : list government_result) :
  governments_of r = Ok l -> exists c, r = Ok c /\ governments c = l.
Proof.
  destruct r as [c|e]; simpl; [|discriminate].
  intros [= <-]. exists c. split; reflexivity.
Qed.

Lemma usable_outcome (s : scraper) (resp : response) (ref : option string) :
  usable ref -> exists r, outcome s resp ref = Ok r.
Proof.
  intros Hu. destruct resp as [msg|soup]; simpl.
  - eexists; reflexivity.
  - unfold evaluate. destruct (absent ref) eqn:Ha.
    + eexists; reflexivity.
    + destruct Hu as [Hu|[d Hd]]; [congruence|].
      rewrite Hd. eexists; reflexivity.
Qed.

Lemma usable_entries (f : scraper -> response) (ref : option string) :
  usable ref ->
  exists a b c,
    entries f ref = Ok [a; b; c] /\
    entry AlbertaLegislatureScraper (f AlbertaLegislatureScraper) ref = Ok a /\
    entry HouseOfCommonsScraper (f HouseOfCommonsScraper) ref = Ok b /\
    entry StrathconaCountyScraper (f StrathconaCountyScraper) ref = Ok c.
Proof.
  intros Hu. unfold entries, entry.
  destruct (usable_outcome AlbertaLegislatureScraper (f AlbertaLegislatureScraper) Hu)
    as [a ->].
  destruct (usable_outcome HouseOfCommonsScraper (f HouseOfCommonsScraper) Hu)
    as [b ->].
  destruct (usable_outcome StrathconaCountyScraper (f StrathconaCountyScraper) Hu)
    as [c ->].
  simpl. do 3 eexists. repeat split.
Qed.

Lemma entries_at (f : scraper -> response) (ref : option string)
      (l : list government_result) (s : scraper) :
  usable ref ->
  entries f ref = Ok l ->
  List.length l = 3%nat /\
  exists g, nth_error l (position s) = Some g /\ entry s (f s) ref = Ok g.
Proof.
  intros Hu Hl.
  destruct (usable_entries f Hu) as (a & b & c & He & Ha & Hb & Hc).
  rewrite He in Hl. injection Hl as <-. split; [reflexivity|].
  destruct s; simpl; eexists; (split; [reflexivity | assumption]).
Qed.

(** C4, the claim as stated fails: the element of [governments] has the three
    keys name, has_new_content and new_items and no error; with a reference
    given, the element for a source whose fetch failed is the very element
    of a source whose page was fetched and held nothing. *)
Lemma C4_failed_fetch_reads_as_nothing_new :
  fetched Sample.alberta_down AlbertaLegislatureScraper
    = RequestException "503 Server Error" /\
  fetched Sample.alberta_quiet AlbertaLegislatureScraper = Page Sample.empty_page /\
  exists c c',
    fst (check_all Sample.alberta_down (Some "2025-10-01T00:00:00") 0%nat) = Ok c /\
    fst (check_all Sample.alberta_quiet (Some "2025-10-01T00:00:00") 0%nat) = Ok c' /\
    nth_error (governments c) 0
      = Some {| gov_name := "Alberta Legislature";
                has_new_content := false; new_items := [] |} /\
    nth_error (governments c') 0 = nth_error (governments c) 0 /\
    governments c' = governments c.
Proof.
  split; [reflexivity|]. split; [reflexivity|].
  do 2 eexists. split; [vm_compute; reflexivity|].
  split; [vm_compute; reflexivity|]. repeat split.
Qed.

(** C4, amended: when the fetch of one source fails and the reference is
    absent or readable, [check_all] returns its three elements, the one of
    that source has has_new_content false and new_items empty (it carries no
    error field), and the other two are what they are in any world where
    those two sources answer the same. *)
Theorem C4_failed_fetch_is_isolated
        (w w' : world) (ref : option string) (n n' : nat) (s : scraper) (e : string) :
  usable ref ->
  fetched w s = RequestException e ->
  (forall s', s' <> s -> fetched w' s' = fetched w s') ->
  exists c c',
    fst (check_all w ref n) = Ok c /\
    fst (check_all w' ref n') = Ok c' /\
    List.length (governments c) = 3%nat /\
    nth_error (governments c) (position s)
      = Some {| gov_name := name s; has_new_content := false; new_items := [] |} /\
    forall s', s' <> s ->
      nth_error (governments c') (position s') = nth_error (governments c) (position s').
Proof.
  intros Hu Hs Hsame.
  destruct (usable_entries (fetched w) Hu) as (a & b & c0 & He & _).
  destruct (usable_entries (fetched w') Hu) as (a' & b' & c0' & He' & _).
  pose proof (check_all_entries w ref n) as Hw. rewrite He in Hw.
  pose proof (check_all_entries w' ref n') as Hw'. rewrite He' in Hw'.
  destruct (governments_of_ok _ Hw) as (c & Hc & Hg).
  destruct (governments_of_ok _ Hw') as (c' & Hc' & Hg').
  exists c, c'. split; [exact Hc|]. split; [exact Hc'|].
  rewrite Hg, Hg'. split; [reflexivity|]. split.
  - destruct (entries_at (fetched w) s Hu He) as (_ & g & Hn & Hentry).
    rewrite Hn. f_equal. unfold entry in Hentry. rewrite Hs in Hentry.
    simpl in Hentry. congruence.
  - intros s' Hne.
    destruct (entries_at (fetched w) s' Hu He) as (_ & g & Hn & Hentry).
    destruct (entries_at (fetched w') s' Hu He') as (_ & g' & Hn' & Hentry').
    rewrite Hn, Hn'. rewrite (Hsame s' Hne) in Hentry'. congruence.
Qed.

Lemma C4_failed_fetch_is_isolated_witness :
  exists c c',
    fst (check_all Sample.alberta_down (Some "2025-01-15T09:00:00") 0%nat) = Ok c /\
    fst (check_all Sample.all_up_later (Some "2025-01-15T09:00:00") 3%nat) = Ok c' /\
    List.length (governments c) = 3%nat /\
    nth_error (governments c) (position AlbertaLegislatureScraper)
      = Some {| gov_name := name AlbertaLegislatureScraper;
                has_new_content := false; new_items := [] |} /\
    forall s', s' <> AlbertaLegislatureScraper ->
      nth_error (governments c') (position s') = nth_error (governments c) (position s').
Proof.
  apply (@C4_failed_fetch_is_isolated Sample.alberta_down Sample.all_up_later
           (Some "2025-01-15T09:00:00") 0%nat 3%nat AlbertaLegislatureScraper
           "503 Server Error").
  - right. eexists. vm_compute. reflexivity.
  - reflexivity.
  - intros [] H; [contradiction H|..]; reflexivity.
Defined.

(** C9: the [governments] part of what [check_all] returns (or the exception
    it raises) is the same in two invocations that are given the same
    reference and for which every source answers the same, whatever the
    clocks read; only [checked_at] may differ. *)
Theorem C9_check_all_deterministic
        (w1 w2 : world) (ref : option string) (n1 n2 : nat) :
  (forall s, fetched w1 s = fetched w2 s) ->
  governments_of (fst (check_all w1 ref n1))
  = governments_of (fst (check_all w2 ref n2)).
Proof.
  intros Hsame. rewrite !check_all_entries. unfold entries.
  rewrite !Hsame. reflexivity.
Qed.

Lemma C9_check_all_deterministic_witness :
  governments_of (fst (check_all Sample.all_up (Some "2025-01-15T09:00:00") 0%nat))
  = governments_of (fst (check_all Sample.all_up_later (Some "2025-01-15T09:00:00") 4%nat)).
Proof.
  apply (@C9_check_all_deterministic Sample.all_up Sample.all_up_later
           (Some "2025-01-15T09:00:00") 0%nat 4%nat).
  intros []; reflexivity.
Defined.

(** C10: with a reference that [fromisoformat] reads, [check_for_new]
    returns a pair whose has_new is true exactly when new_items is not empty;
    new_items is a subsequence, in extraction order, of the at most 5 items
    extracted from the page of the same fetch, and is empty when the fetch
    failed. *)
Theorem C10_has_new_iff_new_items
        (w : world) (s : scraper) (r : string) (d : Datetime.datetime) (n : nat) :
  Datetime.fromisoformat r = Ok d ->
  exists has_new new,
    fst (check_for_new w s (Some r) n) = Ok (has_new, new) /\
    (has_new = true <-> new <> []) /\
    match fetched w s with
    | Page soup =>
        subsequence new (latest_items s soup) /\
        (List.length (latest_items s soup) <= 5)%nat
    | RequestException _ => new = []
    end.
Proof.
  intros Hr. rewrite check_for_new_outcome. cbn [fst]. unfold outcome.
  destruct (fetched w s) as [msg|soup].
  - exists false, []. split; [reflexivity|]. split; [|reflexivity].
    split; [discriminate | intros H; contradiction H; reflexivity].
  - rewrite (evaluate_present s _ r Hr). do 2 eexists.
    split; [reflexivity|]. split; [apply has_new_iff|].
    split; [apply subsequence_filter | apply latest_items_length].
Qed.

Lemma C10_has_new_iff_new_items_witness :
  exists has_new new,
    fst (check_for_new Sample.all_up AlbertaLegislatureScraper
                       (Some "2025-01-15T09:00:00") 1%nat) = Ok (has_new, new) /\
    (has_new = true <-> new <> []) /\
    match fetched Sample.all_up AlbertaLegislatureScraper with
    | Page soup =>
        subsequence new (latest_items AlbertaLegislatureScraper soup) /\
        (List.length (latest_items AlbertaLegislatureScraper soup) <= 5)%nat
    | RequestException _ => new = []
    end.
Proof.
  apply (@C10_has_new_iff_new_items Sample.all_up AlbertaLegislatureScraper
           "2025-01-15T09:00:00"
           (Datetime.mkDatetime 2025 1 15 9 0 0 0 None) 1%nat).
  vm_compute. reflexivity.
Defined.

(* ================================================================== *)
(** * Further properties of the code *)

(** ** What every extracted item is made of *)

(** A property that holds of every entry a scraper builds holds of every
    item it returns. *)
Lemma latest_items_built (P : scraper -> item -> Prop) :
  (forall parent element link g,
      pdf_link parent = Some link ->
      Re.search element = Some g ->
      P AlbertaLegislatureScraper
        {| full_text := Str.strip element; pdf_url := Some link; url := None;
           month := Re.g1 g; day := Str.int (Re.g2 g); year := Str.int (Re.g3 g);
           government := "Alberta Legislature" |}) ->
  (forall title_text g,
      Re.search title_text = Some g ->
      P HouseOfCommonsScraper (commons_item title_text g)) ->
  (forall parent link g,
      is_council_link (Str.strip (Soup.get_text link)) = true ->
      Re.search (Soup.get_text parent) = Some g ->
      P StrathconaCountyScraper
        {| full_text := Str.strip (Soup.get_text link); pdf_url := None;
           url := Some (full_url StrathconaCountyScraper (Soup.href link));
           month := Re.g1 g; day := Str.int (Re.g2 g); year := Str.int (Re.g3 g);
           government := "Strathcona County Council" |}) ->
  forall s soup, Forall (P s) (latest_items s soup).
Proof.
  intros HA HC HS s soup. destruct s; unfold latest_items.
  - apply Forall_firstn_of, Forall_sort_newest_first.
    unfold transcript_entries. apply Forall_flat_map, Forall_forall.
    intros [parent element] _. unfold alberta_entry. cbn [fst snd].
    destruct (pdf_link parent) as [link|] eqn:Hl; [|constructor].
    destruct (Str.truthy link); [|constructor].
    destruct (Re.search element) as [g|] eqn:Hg; [|constructor].
    constructor; [|constructor]. apply (HA parent element link g Hl Hg).
  - unfold commons_items.
    destruct (Soup.find_title soup) as [title|]; [|constructor].
    cbv zeta. destruct (Re.search (Soup.get_text title)) as [g|] eqn:Hg; [|constructor].
    constructor; [|constructor]. apply (HC _ g Hg).
  - apply Forall_firstn_of, Forall_sort_newest_first.
    unfold meeting_items. apply Forall_flat_map, Forall_forall.
    intros [parent link] _. unfold strathcona_entry. cbn [fst snd]. cbv zeta.
    destruct (is_council_link _) eqn:Hc; [|constructor].
    destruct (Re.search (Soup.get_text parent)) as [g|] eqn:Hg; [|constructor].
    constructor; [|constructor]. apply (HS parent link g Hc Hg).
Qed.

Lemma lower_append (a b : string) : Str.lower (a ++ b) = Str.lower a ++ Str.lower b.
Proof.
  induction a as [|c a IH]; simpl; [reflexivity | rewrite IH; reflexivity].
Qed.

Lemma contains_append (sub a b : string) :
  Str.contains sub b = true -> Str.contains sub (a ++ b) = true.
Proof.
  intros Hb. induction a as [|c a IH]; simpl; [exact Hb|].
  rewrite IH. apply orb_true_r.
Qed.

Lemma pdf_link_target (parent : Soup.node) (link : string) :
  pdf_link parent = Some link -> Str.contains "pdf" (Str.lower link) = true.
Proof.
  unfold pdf_link.
  destruct (List.find _ _) as [l|] eqn:Hf; [|discriminate].
  intros [= <-]. apply find_some in Hf. destruct Hf as [_ Hpdf].
  unfold full_url. destruct (negb _); [|exact Hpdf].
  rewrite lower_append. apply contains_append, Hpdf.
Qed.

(** X1: every item of the Alberta scraper carries its link under pdf_url
    and none under url, and the link, in lower case, contains "pdf": a date
    with no PDF link near it yields no item. *)
Theorem X1_alberta_items_link_to_a_pdf (soup : Soup.node) :
  Forall (fun it => url it = None /\
                    exists u, pdf_url it = Some u /\
                              Str.contains "pdf" (Str.lower u) = true)
         (latest_items AlbertaLegislatureScraper soup).
Proof.
  refine (@latest_items_built
            (fun s it => match s with
                         | AlbertaLegislatureScraper =>
                             url it = None /\
                             exists u, pdf_url it = Some u /\
                                       Str.contains "pdf" (Str.lower u) = true
                         | _ => True
                         end) _ _ _ AlbertaLegislatureScraper soup);
    try (intros; exact I).
  intros parent element link g Hl _. split; [reflexivity|].
  exists link. split; [reflexivity | apply (pdf_link_target parent), Hl].
Qed.





(** ** [str.strip] leaves nothing to strip *)

Lemma lstrip_head (s : string) :
  match Str.lstrip s with
  | EmptyString => True
  | String c _ => Str.is_space c = false
  end.
Proof.
  induction s as [|c s IH]; simpl; [exact I|].
  destruct (Str.is_space c) eqn:Hc; [exact IH | exact Hc].
Qed.

Lemma rstrip_cons (c : ascii) (s : string) :
  Str.rstrip (String c s)
  = match Str.rstrip s with
    | EmptyString => if Str.is_space c then EmptyString else String c EmptyString
    | String c' r => String c (String c' r)
    end.
Proof.
  reflexivity.
Qed.

Lemma rstrip_head (c : ascii) (s : string) :
  Str.is_space c = false -> exists r, Str.rstrip (String c s) = String c r.
Proof.
  intros Hc. rewrite rstrip_cons. destruct (Str.rstrip s).
  - rewrite Hc. eexists; reflexivity.
  - eexists; reflexivity.
Qed.

Lemma rstrip_idempotent (s : string) : Str.rstrip (Str.rstrip s) = Str.rstrip s.
Proof.
  induction s as [|c s IH]; [reflexivity|].
  rewrite rstrip_cons. destruct (Str.rstrip s) as [|c' r] eqn:Hr.
  - destruct (Str.is_space c) eqn:Hc; [reflexivity|].
    rewrite rstrip_cons. cbn [Str.rstrip]. rewrite Hc. reflexivity.
  - rewrite rstrip_cons, IH. reflexivity.
Qed.

Lemma strip_idempotent (s : string) : Str.strip (Str.strip s) = Str.strip s.
Proof.
  unfold Str.strip. pose proof (lstrip_head s) as Hh.
  destruct (Str.lstrip s) as [|c t]; [reflexivity|].
  destruct (@rstrip_head c t Hh) as [r Hr]. rewrite Hr.
  cbn [Str.lstrip]. rewrite Hh, <- Hr. apply rstrip_idempotent.
Qed.

(** X3: every item of the Strathcona scraper is labelled with the text of a
    link that names the council and an agenda or minutes, whatever the case
    of the letters, and the label has no white space left at either end. *)
Theorem X3_strathcona_items_are_council_links (soup : Soup.node) :
  Forall (fun it => is_council_link (full_text it) = true /\
                    Str.strip (full_text it) = full_text it /\
                    pdf_url it = None /\ url it <> None)
         (latest_items StrathconaCountyScraper soup).
Proof.
  refine (@latest_items_built
            (fun s it => match s with
                         | StrathconaCountyScraper =>
                             is_council_link (full_text it) = true /\
                             Str.strip (full_text it) = full_text it /\
                             pdf_url it = None /\ url it <> None
                         | _ => True
                         end) _ _ _ StrathconaCountyScraper soup);
    try (intros; exact I).
  intros parent link g Hc _. cbn [full_text pdf_url url].
  split; [exact Hc|]. split; [apply strip_idempotent|].
  split; [reflexivity | discriminate].
Qed.

(** ** The order of the returned items *)

Lemma Sorted_firstn (A : Type) (R : A -> A -> Prop) (n : nat) (l : list A) :
  Sorted R l -> Sorted R (firstn n l).
Proof.
  intros Hl. revert n. induction Hl as [|a l Hl IH Hhd]; intros [|n]; simpl;
    try constructor.
  - apply IH.
  - destruct Hhd as [|b l' Hab]; destruct n; simpl; constructor; assumption.
Qed.

Lemma Sorted_weaken (A : Type) (R R' : A -> A -> Prop) (l : list A) :
  (forall a b, R a b -> R' a b) -> Sorted R l -> Sorted R' l.
Proof.
  intros HR. induction 1 as [|a l Hl IH Hhd]; constructor; [exact IH|].
  destruct Hhd; constructor. apply HR. assumption.
Qed.

Lemma key_geb_year (a b : item) : key_geb a b = true -> year b <= year a.
Proof.
  unfold key_geb, key_gtb.
  destruct (Z.compare_spec (year b) (year a)); first [lia | discriminate].
Qed.

Lemma commons_items_sorted (R : item -> item -> Prop) (soup : Soup.node) :
  Sorted R (commons_items soup).
Proof.
  unfold commons_items.
  destruct (Soup.find_title soup); [|constructor].
  destruct (Re.search _); repeat constructor.
Qed.

(** X4: the items every scraper returns are in descending order of the key
    (year, month as the page spells it, day); in particular an item never
    comes before an item of a later year. *)
Theorem X4_latest_items_descend_in_key (s : scraper) (soup : Soup.node) :
  Sorted (fun a b => key_geb a b = true) (latest_items s soup) /\
  Sorted (fun a b => year b <= year a) (latest_items s soup).
Proof.
  assert (H : Sorted (fun a b => key_geb a b = true) (latest_items s soup)).
  { destruct s; unfold latest_items.
    - apply Sorted_firstn, sort_newest_first_sorted.
    - apply commons_items_sorted.
    - apply Sorted_firstn, sort_newest_first_sorted. }
  split; [exact H|]. exact (Sorted_weaken _ key_geb_year H).
Qed.

(** ** The sort key is a total preorder *)

Lemma ascii_compare_lt_trans (a b c : ascii) :
  Ascii.compare a b = Lt -> Ascii.compare b c = Lt -> Ascii.compare a c = Lt.
Proof.
  unfold Ascii.compare. rewrite !N.compare_lt_iff. lia.
Qed.

Lemma string_compare_lt_trans (x y z : string) :
  String.compare x y = Lt -> String.compare y z = Lt -> String.compare x z = Lt.
Proof.
  revert y z. induction x as [|a x IH]; intros [|b y] [|c z]; simpl;
    try discriminate; try reflexivity.
  destruct (Ascii.compare a b) eqn:Hab; try discriminate;
    destruct (Ascii.compare b c) eqn:Hbc; try discriminate; intros H1 H2.
  - apply Ascii.compare_eq_iff in Hab, Hbc. subst.
    assert (Hcc : Ascii.compare c c = Eq).
    { unfold Ascii.compare. apply N.compare_refl. }
    rewrite Hcc. exact (IH y z H1 H2).
  - apply Ascii.compare_eq_iff in Hab. subst. rewrite Hbc. reflexivity.
  - apply Ascii.compare_eq_iff in Hbc. subst. rewrite Hab. reflexivity.
  - rewrite (ascii_compare_lt_trans _ _ _ Hab Hbc). reflexivity.
Qed.

Lemma string_compare_refl (x : string) : String.compare x x = Eq.
Proof.
  pose proof (String.compare_antisym x x) as H.
  destruct (String.compare x x); [reflexivity | discriminate | discriminate].
Qed.

Lemma string_compare_gt_lt (x y : string) :
  String.compare x y = Gt <-> String.compare y x = Lt.
Proof.
  rewrite (String.compare_antisym y x).
  destruct (String.compare x y); simpl; split; congruence.
Qed.

(** [key_gtb] written out. *)
Lemma key_gtb_spec (a b : item) :
  key_gtb a b = true <->
  year b < year a \/
  (year a = year b /\
   (String.compare (month b) (month a) = Lt \/
    (month a = month b /\ day b < day a))).
Proof.
  unfold key_gtb.
  destruct (Z.compare_spec (year a) (year b)) as [Hy|Hy|Hy].
  - destruct (String.compare (month a) (month b)) eqn:Hm.
    + apply String.compare_eq_iff in Hm. rewrite Z.ltb_lt.
      split; [intros H; right; split; [exact Hy|]; right; split; assumption|].
      intros [H|[_ [H|[_ H]]]]; [lia| |exact H].
      rewrite Hm, string_compare_refl in H. discriminate.
    + split; [discriminate|].
      intros [H|[_ [H|[H _]]]]; [lia| |].
      * apply string_compare_gt_lt in H. congruence.
      * rewrite H, string_compare_refl in Hm. discriminate.
    + split; [|reflexivity]. intros _. right. split; [exact Hy|]. left.
      apply string_compare_gt_lt, Hm.
  - split; [discriminate|]. intros [H|[H _]]; lia.
  - split; [|reflexivity]. intros _. left. lia.
Qed.

Lemma key_gtb_trans (a b c : item) :
  key_gtb a b = true -> key_gtb b c = true -> key_gtb a c = true.
Proof.
  rewrite !key_gtb_spec.
  intros [H1|[E1 [H1|[M1 H1]]]] [H2|[E2 [H2|[M2 H2]]]]; try (left; lia);
    right; (split; [lia|]).
  - left. exact (string_compare_lt_trans _ _ _ H2 H1).
  - left. rewrite <- M2. exact H1.
  - left. rewrite M1. exact H2.
  - right. split; [congruence | lia].
Qed.

Lemma string_compare_cases (x y : string) :
  String.compare x y = Lt \/ x = y \/ String.compare y x = Lt.
Proof.
  destruct (String.compare x y) eqn:H.
  - right. left. apply String.compare_eq_iff, H.
  - left. reflexivity.
  - right. right. apply string_compare_gt_lt, H.
Qed.

Lemma key_total (a b : item) :
  key_gtb a b = true \/ key_gtb b a = true \/ same_key a b = true.
Proof.
  rewrite !key_gtb_spec. unfold same_key.
  destruct (Z.lt_total (year a) (year b)) as [H|[H|H]];
    [right; left; left; exact H| |left; left; exact H].
  destruct (string_compare_cases (month a) (month b)) as [Hm|[Hm|Hm]].
  - right. left. right. split; [lia|]. left. exact Hm.
  - destruct (Z.lt_total (day a) (day b)) as [Hd|[Hd|Hd]].
    + right. left. right. split; [lia|]. right. split; [congruence | exact Hd].
    + right. right. rewrite H, Hm, Hd, !Z.eqb_refl, String.eqb_refl. reflexivity.
    + left. right. split; [exact H|]. right. split; assumption.
  - left. right. split; [exact H|]. left. exact Hm.
Qed.

Lemma same_key_gtb (a b c : item) :
  same_key a b = true -> key_gtb c a = key_gtb c b.
Proof.
  unfold same_key, key_gtb. intros H.
  apply andb_prop in H. destruct H as [H Hd]. apply andb_prop in H.
  destruct H as [Hy Hm].
  apply Z.eqb_eq in Hy, Hd. apply String.eqb_eq in Hm.
  rewrite Hy, Hm, Hd. reflexivity.
Qed.

Lemma key_geb_trans (a b c : item) :
  key_geb a b = true -> key_geb b c = true -> key_geb a c = true.
Proof.
  unfold key_geb. rewrite !negb_true_iff. intros Hab Hbc.
  destruct (key_gtb c a) eqn:Hca; [|reflexivity].
  destruct (key_total a b) as [H|[H|H]].
  - rewrite (key_gtb_trans _ _ _ Hca H) in Hbc. discriminate.
  - congruence.
  - rewrite (@same_key_gtb a b c H) in Hca. congruence.
Qed.

Lemma StronglySorted_app_between (A : Type) (R : A -> A -> Prop) (l1 l2 : list A) :
  StronglySorted R (l1 ++ l2) ->
  forall a b, In a l1 -> In b l2 -> R a b.
Proof.
  induction l1 as [|x l1 IH]; intros Hs a b Ha Hb; [contradiction|].
  simpl in Hs. apply StronglySorted_inv in Hs. destruct Hs as [Hs Hx].
  destruct Ha as [<-|Ha].
  - rewrite Forall_forall in Hx. apply Hx, in_or_app. right. exact Hb.
  - exact (IH Hs a b Ha Hb).
Qed.

(** X5: the items returned are the candidates of the page that lead in the
    key order: with the candidates left out they make up all candidates,
    no candidate left out has a greater key than an item returned, and
    nothing is left out when the page yields at most five. *)
Theorem X5_returned_items_lead_the_candidates (s : scraper) (soup : Soup.node) :
  exists dropped,
    Permutation (candidates s soup) (latest_items s soup ++ dropped) /\
    (forall a b, In a (latest_items s soup) -> In b dropped -> key_geb a b = true) /\
    ((List.length (candidates s soup) <= 5)%nat -> dropped = []).
Proof.
  assert (Hsort : forall l,
             exists dropped,
               Permutation l (firstn 5 (sort_newest_first l) ++ dropped) /\
               (forall a b, In a (firstn 5 (sort_newest_first l)) -> In b dropped ->
                            key_geb a b = true) /\
               ((List.length l <= 5)%nat -> dropped = [])).
  { intros l. exists (skipn 5 (sort_newest_first l)). split; [|split].
    - rewrite firstn_skipn. apply sort_newest_first_perm.
    - apply StronglySorted_app_between. rewrite firstn_skipn.
      apply Sorted_StronglySorted; [|apply sort_newest_first_sorted].
      intros a b c. apply key_geb_trans.
    - intros Hlen. apply skipn_all2.
      rewrite <- (Permutation_length (sort_newest_first_perm l)). exact Hlen. }
  destruct s; unfold latest_items, candidates; try apply Hsort.
  exists []. rewrite app_nil_r. split; [apply Permutation_refl|].
  split; [intros a b _ []|reflexivity].
Qed.

Unset Implicit Arguments.

(** ** What [check_for_new] and [check_all] hand on *)

Lemma subsequence_In (A : Type) (l l' : list A) (x : A) :
  subsequence l l' -> In x l -> In x l'.
Proof.
  induction 1 as [|y l l' _ IH|y l l' _ IH]; simpl; intros Hx.
  - exact Hx.
  - right. apply IH, Hx.
  - destruct Hx as [Hx|Hx]; [left; exact Hx | right; apply IH, Hx].
Qed.

Lemma subsequence_length (A : Type) (l l' : list A) :
  subsequence l l' -> (List.length l <= List.length l')%nat.
Proof.
  induction 1; simpl; lia.
Qed.

Lemma subsequence_trans (A : Type) (l1 l2 l3 : list A) :
  subsequence l1 l2 -> subsequence l2 l3 -> subsequence l1 l3.
Proof.
  intros H12 H23. revert l1 H12.
  induction H23 as [|x l2 l3 _ IH|x l2 l3 _ IH]; intros l1 H12.
  - exact H12.
  - apply sub_skip, IH, H12.
  - inversion H12; subst.
    + apply sub_skip, IH. assumption.
    + apply sub_keep, IH. assumption.
Qed.

(** Whatever the reference, the items reported are among the items given,
    in their order. *)
Lemma evaluate_subsequence (s : scraper) (items : list item) (ref : option string)
      (r : bool * list item) :
  evaluate s items ref = Ok r -> subsequence (snd r) items.
Proof.
  unfold evaluate. destruct (absent ref).
  - intros [= <-]. destruct items as [|x items]; simpl.
    + constructor.
    + apply sub_keep. clear. induction items; constructor; assumption.
  - destruct (Datetime.fromisoformat (the_string ref)) as [d|e]; [|discriminate].
    simpl. intros [= <-]. simpl. rewrite collect_new_filter. apply subsequence_filter.
Qed.

(** The three outcomes behind a list of entries. *)
Lemma entries_inv (f : scraper -> response) (ref : option string)
      (l : list government_result) :
  entries f ref = Ok l ->
  exists ra rb rc,
    outcome AlbertaLegislatureScraper (f AlbertaLegislatureScraper) ref = Ok ra /\
    outcome HouseOfCommonsScraper (f HouseOfCommonsScraper) ref = Ok rb /\
    outcome StrathconaCountyScraper (f StrathconaCountyScraper) ref = Ok rc /\
    l = [ {| gov_name := name AlbertaLegislatureScraper;
             has_new_content := fst ra; new_items := snd ra |};
          {| gov_name := name HouseOfCommonsScraper;
             has_new_content := fst rb; new_items := snd rb |};
          {| gov_name := name StrathconaCountyScraper;
             has_new_content := fst rc; new_items := snd rc |} ].
Proof.
  unfold entries, entry.
  destruct (outcome AlbertaLegislatureScraper _ ref) as [ra|]; [|discriminate].
  destruct (outcome HouseOfCommonsScraper _ ref) as [rb|]; [|discriminate].
  destruct (outcome StrathconaCountyScraper _ ref) as [rc|]; [|discriminate].
  simpl. intros [= <-]. exists ra, rb, rc. repeat split.
Qed.

(** A run of [check_all] that returns: four readings of the clock, the first
    for [checked_at]. *)
Lemma check_all_run (w : world) (ref : option string) (n : nat)
      (l : list government_result) :
  entries (fetched w) ref = Ok l ->
  check_all w ref n
  = (Ok {| checked_at := now_isoformat w n; governments := l |}, (n + 4)%nat).
Proof.
  intros He. destruct (entries_inv _ _ _ He) as (ra & rb & rc & Ha & Hb & Hc & ->).
  unfold check_all, scrapers, bind, datetime_now.
  cbn [check_each]. unfold bind.
  rewrite check_for_new_outcome, Ha. cbn beta iota.
  rewrite check_for_new_outcome, Hb. cbn beta iota.
  rewrite check_for_new_outcome, Hc. cbn beta iota.
  unfold ret. cbn [app]. repeat f_equal. lia.
Qed.

Lemma check_all_returns (w : world) (ref : option string) (n : nat) (c : check_result) :
  fst (check_all w ref n) = Ok c ->
  entries (fetched w) ref = Ok (governments c) /\
  check_all w ref n = (Ok c, (n + 4)%nat) /\
  checked_at c = now_isoformat w n.
Proof.
  intros Hc. pose proof (check_all_entries w ref n) as He.
  rewrite Hc in He. simpl in He. symmetry in He.
  pose proof (check_all_run w ref n _ He) as Hrun.
  rewrite Hrun in Hc. simpl in Hc. injection Hc as <-.
  repeat split; assumption.
Qed.

Lemma items_tagged (s : scraper) (soup : Soup.node) :
  Forall (fun it => government it = name s) (latest_items s soup).
Proof.
  refine (@latest_items_built (fun s it => government it = name s) _ _ _ s soup);
    intros; reflexivity.
Qed.

Lemma outcome_items (s : scraper) (resp : response) (ref : option string)
      (r : bool * list item) :
  outcome s resp ref = Ok r ->
  Forall (fun it => government it = name s) (snd r) /\
  (List.length (snd r) <= 5)%nat.
Proof.
  destruct resp as [msg|soup]; simpl.
  - intros [= <-]. simpl. split; [constructor | lia].
  - intros He. apply evaluate_subsequence in He. split.
    + apply Forall_forall. intros it Hit.
      pose proof (items_tagged s soup) as Ht. rewrite Forall_forall in Ht.
      apply Ht. exact (subsequence_In _ _ _ _ He Hit).
    + pose proof (subsequence_length _ _ _ He). pose proof (latest_items_length s soup). lia.
Qed.

(** X6: in every result of [check_all], each entry names its government,
    holds at most five new items, and every one of its items was produced by
    the scraper of that government: the item's own government field is the
    entry's name. *)
Theorem X6_entries_hold_their_own_items
        (w : world) (ref : option string) (n : nat) (c : check_result) :
  fst (check_all w ref n) = Ok c ->
  map gov_name (governments c) = map name scrapers /\
  Forall (fun g => Forall (fun it => government it = gov_name g) (new_items g) /\
                   (List.length (new_items g) <= 5)%nat)
         (governments c).
Proof.
  intros Hc. apply check_all_returns in Hc. destruct Hc as (He & _ & _).
  destruct (entries_inv _ _ _ He) as (ra & rb & rc & Ha & Hb & Hc & ->).
  split; [reflexivity|].
  apply outcome_items in Ha, Hb, Hc.
  constructor; [exact Ha|]. constructor; [exact Hb|].
  constructor; [exact Hc|]. constructor.
Qed.

Lemma X6_entries_hold_their_own_items_witness :
  exists c,
    fst (check_all Sample.all_up (Some "2025-01-15T09:00:00") 0%nat) = Ok c /\
    map gov_name (governments c) = map name scrapers /\
    Forall (fun g => Forall (fun it => government it = gov_name g) (new_items g) /\
                     (List.length (new_items g) <= 5)%nat)
           (governments c).
Proof.
  eexists. split; [vm_compute; reflexivity|].
  apply (@X6_entries_hold_their_own_items Sample.all_up
           (Some "2025-01-15T09:00:00") 0%nat).
  vm_compute. reflexivity.
Defined.

(** ** When [check_all] returns and when it raises *)




(** Every fetch of the world fails. *)
Lemma all_failed_entries (w : world) (ref : option string) :
  (forall s, exists msg, fetched w s = RequestException msg) ->
  entries (fetched w) ref
  = Ok (map (fun s => {| gov_name := name s; has_new_content := false;
                         new_items := [] |}) scrapers).
Proof.
  intros Hall. unfold entries, entry.
  destruct (Hall AlbertaLegislatureScraper) as [ma ->].
  destruct (Hall HouseOfCommonsScraper) as [mb ->].
  destruct (Hall StrathconaCountyScraper) as [mc ->].
  reflexivity.
Qed.

(** X7: [check_all] returns whenever the reference is absent or readable, and
    also when every fetch failed; it has then read the clock four times and
    [checked_at] is the first reading. *)
Theorem X7_check_all_returns (w : world) (ref : option string) (n : nat) :
  usable ref \/ (forall s, exists msg, fetched w s = RequestException msg) ->
  exists c,
    check_all w ref n = (Ok c, (n + 4)%nat) /\
    checked_at c = now_isoformat w n /\
    map gov_name (governments c) = map name scrapers.
Proof.
  intros [Hu|Hall].
  - destruct (usable_entries (fetched w) Hu) as (a & b & c & He & _).
    destruct (entries_inv _ _ _ He) as (ra & rb & rc & _ & _ & _ & Hl).
    eexists. split; [apply check_all_run, He|]. split; [reflexivity|].
    cbn [governments]. rewrite Hl. reflexivity.
  - eexists. split; [apply check_all_run, all_failed_entries, Hall|].
    split; reflexivity.
Qed.

Lemma X7_check_all_returns_witness :
  exists c,
    check_all Sample.alberta_down None 2%nat = (Ok c, (2 + 4)%nat) /\
    checked_at c = now_isoformat Sample.alberta_down 2 /\
    map gov_name (governments c) = map name scrapers.
Proof.
  apply (X7_check_all_returns Sample.alberta_down None 2%nat).
  left. left. reflexivity.
Defined.



(** X9: against a reference that carries a UTC offset no source reports
    anything: the comparison of each item's date with it raises inside the
    [try], so [check_all] returns has_new_content false and no items for all
    three governments, whatever the pages hold. *)
Theorem X9_reference_with_offset_reports_nothing
        (w : world) (r : string) (d : Datetime.datetime) (off : Z) (n : nat) :
  Datetime.fromisoformat r = Ok d ->
  Datetime.tzinfo d = Some off ->
  exists c,
    fst (check_all w (Some r) n) = Ok c /\
    governments c
    = map (fun s => {| gov_name := name s; has_new_content := false;
                       new_items := [] |}) scrapers.
Proof.
  intros Hr Hz.
  assert (Ho : forall s resp, outcome s resp (Some r) = Ok (false, [])).
  { intros s [msg|soup]; simpl; [reflexivity|].
    apply (@evaluate_aware_reference s _ r d off Hr Hz). }
  assert (He : entries (fetched w) (Some r)
               = Ok (map (fun s => {| gov_name := name s; has_new_content := false;
                                      new_items := [] |}) scrapers)).
  { unfold entries, entry. rewrite !Ho. reflexivity. }
  eexists. rewrite (check_all_run w (Some r) n _ He). split; reflexivity.
Qed.

Lemma X9_reference_with_offset_reports_nothing_witness :
  exists c,
    fst (check_all Sample.all_up (Some "2020-01-01T00:00:00+00:00") 0%nat) = Ok c /\
    governments c
    = map (fun s => {| gov_name := name s; has_new_content := false;
                       new_items := [] |}) scrapers.
Proof.
  apply (X9_reference_with_offset_reports_nothing Sample.all_up
           "2020-01-01T00:00:00+00:00"
           (Datetime.mkDatetime 2020 1 1 0 0 0 0 (Some 0)) 0 0%nat);
    reflexivity.
Defined.

(** ** A later reference reports fewer items *)

Lemma date_ltb_le_lt (a b x : Z * Z * Z) :
  date_ltb b a = false -> date_ltb b x = true -> date_ltb a x = true.
Proof.
  destruct a as [[ya ma] da], b as [[yb mb] db], x as [[yx mx] dx].
  unfold date_ltb.
  repeat match goal with
         | [ |- context [?p ?= ?q] ] => destruct (Z.compare_spec p q)
         end;
    repeat match goal with
           | [ |- context [?p <? ?q] ] => destruct (Z.ltb_spec p q)
           end;
    intros; try reflexivity; try discriminate; lia.
Qed.

Lemma subsequence_filter_weaker (A : Type) (f g : A -> bool) (l : list A) :
  (forall x, f x = true -> g x = true) ->
  subsequence (filter f l) (filter g l).
Proof.
  intros Hfg. induction l as [|x l IH]; simpl; [constructor|].
  destruct (f x) eqn:Hf.
  - rewrite (Hfg x Hf). apply sub_keep, IH.
  - destruct (g x); [apply sub_skip, IH | exact IH].
Qed.

Lemma evaluate_naive (s : scraper) (items : list item) (r : string)
      (d : Datetime.datetime) :
  Datetime.fromisoformat r = Ok d ->
  Datetime.tzinfo d = None ->
  evaluate s items (Some r)
  = Ok ((0 <? List.length (filter (newer_than s (date_of d)) items))%nat,
        filter (newer_than s (date_of d)) items).
Proof.
  intros Hr Hz. rewrite (@evaluate_present s items r d Hr).
  destruct (@fromisoformat_fields r d Hr) as [_ Ht].
  rewrite (filter_ext (passes s d) (newer_than s (date_of d))
             (fun it => @passes_naive s d it Ht Hz)).
  reflexivity.
Qed.

(** X10: of two references without offset, the one with the later (or the
    same) date reports a subsequence of what the earlier one reports, and
    reports something only if the earlier one does. *)
Theorem X10_later_reference_reports_fewer
        (s : scraper) (items : list item) (r1 r2 : string)
        (d1 d2 : Datetime.datetime) :
  Datetime.fromisoformat r1 = Ok d1 ->
  Datetime.fromisoformat r2 = Ok d2 ->
  Datetime.tzinfo d1 = None ->
  Datetime.tzinfo d2 = None ->
  date_ltb (date_of d2) (date_of d1) = false ->
  exists b1 l1 b2 l2,
    evaluate s items (Some r1) = Ok (b1, l1) /\
    evaluate s items (Some r2) = Ok (b2, l2) /\
    subsequence l2 l1 /\
    (b2 = true -> b1 = true).
Proof.
  intros H1 H2 Z1 Z2 Hle.
  rewrite (evaluate_naive s items r1 d1 H1 Z1), (evaluate_naive s items r2 d2 H2 Z2).
  do 4 eexists. split; [reflexivity|]. split; [reflexivity|].
  assert (Hsub : subsequence (filter (newer_than s (date_of d2)) items)
                             (filter (newer_than s (date_of d1)) items)).
  { apply subsequence_filter_weaker. intros it. unfold newer_than.
    rewrite !andb_true_iff. intros [Hv Hlt]. split; [exact Hv|].
    exact (date_ltb_le_lt _ _ _ Hle Hlt). }
  split; [exact Hsub|].
  intros Hb. apply Nat.ltb_lt in Hb. apply Nat.ltb_lt.
  pose proof (subsequence_length _ _ _ Hsub). lia.
Qed.

Lemma X10_later_reference_reports_fewer_witness :
  exists b1 l1 b2 l2,
    evaluate StrathconaCountyScraper [Sample.agenda; Sample.minutes]
             (Some "2025-09-01T12:00:00") = Ok (b1, l1) /\
    evaluate StrathconaCountyScraper [Sample.agenda; Sample.minutes]
             (Some "2025-10-01") = Ok (b2, l2) /\
    subsequence l2 l1 /\
    (b2 = true -> b1 = true).
Proof.
  apply (X10_later_reference_reports_fewer StrathconaCountyScraper
           [Sample.agenda; Sample.minutes] "2025-09-01T12:00:00" "2025-10-01"
           (Datetime.mkDatetime 2025 9 1 12 0 0 0 None)
           (Datetime.mkDatetime 2025 10 1 0 0 0 0 None));
    reflexivity.
Defined.

(** ** [isoformat] and [fromisoformat] *)

Lemma digit_is_digit (k : Z) :
  0 <= k <= 9 -> Str.is_digit (Iso.digit k) = true /\ Str.digit_value (Iso.digit k) = k.
Proof.
  intros H.
  assert (Hk : k = 0 \/ k = 1 \/ k = 2 \/ k = 3 \/ k = 4 \/ k = 5 \/ k = 6 \/
               k = 7 \/ k = 8 \/ k = 9) by lia.
  repeat (destruct Hk as [Hk|Hk]); subst k; split; reflexivity.
Qed.

(** Reading back [n] padded digits. *)
Lemma take_digits_pad (n : nat) (v acc : Z) (rest : string) :
  0 <= v < 10 ^ Z.of_nat n ->
  Datetime.take_digits n acc (Iso.pad n v ++ rest)
  = Some (acc * 10 ^ Z.of_nat n + v, rest).
Proof.
  revert v acc. induction n as [|n IH]; intros v acc Hv.
  - simpl in *. f_equal. f_equal. lia.
  - rewrite Nat2Z.inj_succ, Z.pow_succ_r in * by lia.
    assert (Hp : 0 < 10 ^ Z.of_nat n) by (apply Z.pow_pos_nonneg; lia).
    assert (Hq : 0 <= v / 10 ^ Z.of_nat n <= 9).
    { split; [apply Z.div_pos; lia|].
      assert (v / 10 ^ Z.of_nat n < 10); [|lia].
      apply Z.div_lt_upper_bound; lia. }
    destruct (digit_is_digit _ Hq) as [Hd Hval].
    cbn [Iso.pad append Datetime.take_digits]. rewrite Hd, Hval.
    rewrite IH by (apply Z.mod_pos_bound; exact Hp).
    f_equal. f_equal.
    pose proof (Z.div_mod v (10 ^ Z.of_nat n) ltac:(lia)). nia.
Qed.

Lemma append_assoc (a b c : string) : (a ++ b) ++ c = a ++ (b ++ c).
Proof.
  induction a as [|x a IH]; simpl; [reflexivity | rewrite IH; reflexivity].
Qed.

Lemma append_empty_r (a : string) : a ++ "" = a.
Proof.
  induction a as [|x a IH]; simpl; [reflexivity | rewrite IH; reflexivity].
Qed.

(** Reading back the offset that [format_offset] writes. *)
Lemma parse_offset_format (tz : option Z) :
  Datetime.check_tzinfo tz = true ->
  Datetime.parse_offset (Iso.format_offset tz) = Some tz.
Proof.
  destruct tz as [off|]; [|reflexivity].
  unfold Datetime.check_tzinfo, Datetime.day_us. intros H.
  apply andb_prop in H. destruct H as [Hlo Hhi].
  apply Z.ltb_lt in Hlo, Hhi.
  unfold Iso.format_offset. cbv zeta.
  set (a := Z.abs off).
  assert (Ha : 0 <= a < 86400000000) by (unfold a; lia).
  set (hh := a / 3600000000).
  set (mm := (a mod 3600000000) / 60000000).
  set (ss := (a mod 3600000000) mod 60000000).
  set (sec := ss / 1000000).
  set (us := ss mod 1000000).
  assert (Hhh : 0 <= hh < 10 ^ Z.of_nat 2).
  { unfold hh. change (10 ^ Z.of_nat 2) with 100. Z.div_mod_to_equations. lia. }
  assert (Hmm : 0 <= mm < 10 ^ Z.of_nat 2).
  { unfold mm. change (10 ^ Z.of_nat 2) with 100. Z.div_mod_to_equations. lia. }
  assert (Hsec : 0 <= sec < 10 ^ Z.of_nat 2).
  { unfold sec, ss. change (10 ^ Z.of_nat 2) with 100. Z.div_mod_to_equations. lia. }
  assert (Hus : 0 <= us < 10 ^ Z.of_nat 6).
  { unfold us. change (10 ^ Z.of_nat 6) with 1000000. Z.div_mod_to_equations. lia. }
  assert (Hsum : a = ((hh * 60 + mm) * 60 + sec) * 1000000 + us).
  { unfold hh, mm, sec, us, ss. Z.div_mod_to_equations. lia. }
  assert (Hss : ss = sec * 1000000 + us).
  { unfold sec, us. Z.div_mod_to_equations. lia. }
  assert (Hsign : forall sg : Z,
             sg = (if off <? 0 then -1 else 1) ->
             sg * (((hh * 60 + mm) * 60 + sec) * 1000000 + us) = off).
  { intros sg ->. rewrite <- Hsum. unfold a.
    destruct (Z.ltb_spec off 0); lia. }
  assert (Hparse :
            forall sg : Z, sg = (if off <? 0 then -1 else 1) ->
            Datetime.obind (Datetime.take_digits 2 0
                              (Iso.pad 2 hh ++ ":" ++ Iso.pad 2 mm ++
                               (if ss =? 0 then ""
                                else ":" ++ Iso.pad 2 sec ++
                                     (if us =? 0 then "" else "." ++ Iso.pad 6 us))))
              (fun '(h, r1) =>
               Datetime.obind (Datetime.expect ":" r1) (fun r2 =>
               Datetime.obind (Datetime.take_digits 2 0 r2) (fun '(mi, r3) =>
               let off' sec us :=
                 Some (Some (sg * (((h * 60 + mi) * 60 + sec) * 1000000 + us))) in
               match r3 with
               | EmptyString => off' 0 0
               | String ":" r4 =>
                   Datetime.obind (Datetime.take_digits 2 0 r4) (fun '(sec, r5) =>
                   match r5 with
                   | EmptyString => off' sec 0
                   | String "." r6 =>
                       Datetime.obind (Datetime.take_digits 6 0 r6) (fun '(us, r7) =>
                       match r7 with EmptyString => off' sec us | _ => None end)
                   | _ => None
                   end)
               | _ => None
               end)))
            = Some (Some off)).
  { intros sg Hsg. specialize (Hsign sg Hsg).
    rewrite take_digits_pad by exact Hhh. cbn [Datetime.obind append Datetime.expect].
    change (Ascii.eqb ":" ":") with true. cbv iota. cbn [Datetime.obind].
    rewrite take_digits_pad by exact Hmm. cbn [Datetime.obind]. cbv zeta.
    rewrite !Z.mul_0_l, !Z.add_0_l.
    destruct (Z.eqb_spec ss 0) as [Hz|Hz].
    - assert (sec = 0 /\ us = 0) as [Hs0 Hu0] by lia.
      rewrite Hs0, Hu0 in Hsign. rewrite Hsign. reflexivity.
    - cbn [append]. rewrite take_digits_pad by exact Hsec. cbn [Datetime.obind].
      rewrite !Z.mul_0_l, !Z.add_0_l.
      destruct (Z.eqb_spec us 0) as [Hu|Hu].
      + rewrite Hu in Hsign. rewrite Hsign. reflexivity.
      + cbn [append]. rewrite <- (append_empty_r (Iso.pad 6 us)).
        rewrite take_digits_pad by exact Hus. cbn [Datetime.obind].
        rewrite !Z.mul_0_l, !Z.add_0_l. rewrite Hsign. reflexivity. }
  fold a. fold hh mm ss. fold sec us.
  destruct (Z.ltb_spec off 0) as [Hneg|Hpos].
  - cbn [append Datetime.parse_offset].
    change (Ascii.eqb "-" "-") with true. cbv iota. cbn [Datetime.obind].
    apply (Hparse (-1)). destruct (Z.ltb_spec off 0); [reflexivity | lia].
  - cbn [append Datetime.parse_offset].
    change (Ascii.eqb "+" "-") with false. change (Ascii.eqb "+" "+") with true.
    cbv iota. cbn [Datetime.obind].
    apply (Hparse 1). destruct (Z.ltb_spec off 0); [lia | reflexivity].
Qed.

Lemma format_offset_head (tz : option Z) :
  match Iso.format_offset tz with
  | EmptyString => True
  | String c _ => c = "+"%char \/ c = "-"%char
  end.
Proof.
  destruct tz as [off|]; [|exact I].
  unfold Iso.format_offset. cbv zeta.
  destruct (off <? 0); cbn [append]; [right | left]; reflexivity.
Qed.

(** Reading back the time of day that [format_time] writes, up to the
    offset. *)
Lemma parse_time_format (h mi s us : Z) (tz : option Z) :
  Datetime.check_time_fields h mi s us = true ->
  Datetime.parse_hh_mm_ss_ff (Iso.format_time h mi s us ++ Iso.format_offset tz)
  = Some (h, mi, s, us, Iso.format_offset tz).
Proof.
  unfold Datetime.check_time_fields. intros H.
  repeat (apply andb_prop in H; destruct H as [H ?]).
  repeat match goal with
         | [ H : (_ <=? _) = true |- _ ] => apply Z.leb_le in H
         end.
  unfold Iso.format_time, Datetime.parse_hh_mm_ss_ff.
  rewrite !append_assoc.
  rewrite take_digits_pad by (change (10 ^ Z.of_nat 2) with 100; lia).
  cbn [Datetime.obind append]. cbv iota.
  rewrite take_digits_pad by (change (10 ^ Z.of_nat 2) with 100; lia).
  cbn [Datetime.obind append]. cbv iota.
  rewrite take_digits_pad by (change (10 ^ Z.of_nat 2) with 100; lia).
  cbn [Datetime.obind]. rewrite !Z.mul_0_l, !Z.add_0_l.
  destruct (Z.eqb_spec us 0) as [->|Hus].
  - cbn [append]. pose proof (format_offset_head tz) as Hh.
    destruct (Iso.format_offset tz) as [|c r]; [reflexivity|].
    destruct Hh as [-> | ->]; reflexivity.
  - cbn [append]. cbv iota. unfold Datetime.parse_fraction.
    rewrite take_digits_pad by (change (10 ^ Z.of_nat 6) with 1000000; lia).
    cbn [Datetime.obind]. rewrite !Z.mul_0_l, !Z.add_0_l. reflexivity.
Qed.

(** What [isoformat] writes, [fromisoformat] reads back. *)
Lemma fromisoformat_isoformat (d : Datetime.datetime) :
  Iso.valid d = true -> Datetime.fromisoformat (Iso.isoformat d) = Ok d.
Proof.
  destruct d as [y m dd h mi s us tz]. unfold Iso.valid.
  cbn [Datetime.year Datetime.month Datetime.day Datetime.hour Datetime.minute
       Datetime.second Datetime.microsecond Datetime.tzinfo].
  intros H. apply andb_prop in H. destruct H as [H Htz].
  apply andb_prop in H. destruct H as [Hd Ht].
  assert (Hb : 1 <= y <= 9999 /\ 1 <= m <= 12 /\ 1 <= dd <= 31).
  { pose proof (@check_date_fields_bounds y m dd Hd) as [Hm Hdd].
    unfold Datetime.check_date_fields in Hd.
    repeat (apply andb_prop in Hd; destruct Hd as [Hd ?]).
    repeat match goal with
           | [ H : (_ <=? _) = true |- _ ] => apply Z.leb_le in H
           end.
    assert (Datetime.days_in_month y m <= 31).
    { unfold Datetime.days_in_month. month_cases m; destruct (Datetime.is_leap y); lia. }
    lia. }
  unfold Datetime.fromisoformat, Iso.isoformat, Datetime.parse_isoformat.
  cbn [Datetime.year Datetime.month Datetime.day Datetime.hour Datetime.minute
       Datetime.second Datetime.microsecond Datetime.tzinfo].
  rewrite take_digits_pad by (change (10 ^ Z.of_nat 4) with 10000; lia).
  cbn [Datetime.obind append Datetime.expect].
  change (Ascii.eqb "-" "-") with true. cbv iota. cbn [Datetime.obind].
  rewrite take_digits_pad by (change (10 ^ Z.of_nat 2) with 100; lia).
  cbn [Datetime.obind append Datetime.expect].
  change (Ascii.eqb "-" "-") with true. cbv iota. cbn [Datetime.obind].
  rewrite take_digits_pad by (change (10 ^ Z.of_nat 2) with 100; lia).
  cbn [Datetime.obind append]. cbv iota.
  rewrite (parse_time_format h mi s us tz Ht). cbn [Datetime.obind].
  rewrite (parse_offset_format tz Htz). cbn [Datetime.obind].
  rewrite !Z.mul_0_l, !Z.add_0_l.
  unfold Datetime.new. rewrite Hd, Ht, Htz. reflexivity.
Qed.

(** X11: the [checked_at] of a result, the [isoformat] of the naive clock
    reading, is a reference a later check can be given: [fromisoformat]
    reads it back as the same datetime, and an evaluation against it reports
    the items dated after the day of that check. *)
Theorem X11_checked_at_is_a_reference
        (w : world) (ref : option string) (n : nat) (c : check_result)
        (d : Datetime.datetime) (s : scraper) (items : list item) :
  now_isoformat w n = Iso.isoformat d ->
  Iso.valid d = true ->
  Datetime.tzinfo d = None ->
  fst (check_all w ref n) = Ok c ->
  Datetime.fromisoformat (checked_at c) = Ok d /\
  evaluate s items (Some (checked_at c))
  = Ok ((0 <? List.length (filter (newer_than s (date_of d)) items))%nat,
        filter (newer_than s (date_of d)) items).
Proof.
  intros Hnow Hv Hz Hc. apply check_all_returns in Hc. destruct Hc as (_ & _ & Hat).
  assert (Hr : Datetime.fromisoformat (checked_at c) = Ok d).
  { rewrite Hat, Hnow. apply fromisoformat_isoformat, Hv. }
  split; [exact Hr | apply (evaluate_naive s items _ d Hr Hz)].
Qed.

Lemma X11_checked_at_is_a_reference_witness :
  exists c,
    fst (check_all Sample.all_up None 0%nat) = Ok c /\
    Datetime.fromisoformat (checked_at c)
    = Ok (Datetime.mkDatetime 2025 11 3 8 0 0 1 None) /\
    evaluate StrathconaCountyScraper [Sample.agenda; Sample.minutes]
             (Some (checked_at c))
    = Ok (Nat.ltb 0 (List.length
                       (filter (newer_than StrathconaCountyScraper (2025, 11, 3))
                               [Sample.agenda; Sample.minutes])),
          filter (newer_than StrathconaCountyScraper (2025, 11, 3))
                 [Sample.agenda; Sample.minutes]).
Proof.
  eexists. split; [vm_compute; reflexivity|].
  apply (X11_checked_at_is_a_reference Sample.all_up None 0%nat _
           (Datetime.mkDatetime 2025 11 3 8 0 0 1 None)
           StrathconaCountyScraper [Sample.agenda; Sample.minutes]);
    vm_compute; reflexivity.
Defined.

(** ** The summary of a result *)

(** X12: [generate_summary] fails with the [IndexError] exactly when some
    entry has new content and the result holds fewer than three entries;
    a result in which nothing is new is summarised whatever its length. *)
Theorem X12_summary_raises_only_short_of_three (generated : string) (r : check_result) :
  Summary.generate_summary generated r = None <->
  has_any (governments r) = true /\ (List.length (governments r) < 3)%nat.
Proof.
  unfold Summary.generate_summary. cbv zeta.
  destruct (has_any (governments r)) eqn:Hany; cbn [negb].
  - destruct (governments r) as [|a [|b [|c l]]]; cbn [nth_error List.length];
      (split; [intros H | intros [_ H]]);
      first [ discriminate H | reflexivity | lia | split; [reflexivity | lia] ].
  - split; [discriminate | intros [H _]; discriminate].
Qed.

Lemma items_keys (s : scraper) (soup : Soup.node) :
  Forall (fun it => match s with
                    | AlbertaLegislatureScraper => Some (get_pdf_url it) = locator it
                    | _ => Some (get_url it) = locator it
                    end)
         (latest_items s soup).
Proof.
  refine (@latest_items_built
            (fun s it => match s with
                         | AlbertaLegislatureScraper => Some (get_pdf_url it) = locator it
                         | _ => Some (get_url it) = locator it
                         end) _ _ _ s soup);
    intros; reflexivity.
Qed.

Lemma outcome_keys (s : scraper) (resp : response) (ref : option string)
      (r : bool * list item) :
  outcome s resp ref = Ok r ->
  Forall (fun it => match s with
                    | AlbertaLegislatureScraper => Some (get_pdf_url it) = locator it
                    | _ => Some (get_url it) = locator it
                    end) (snd r).
Proof.
  destruct resp as [msg|soup]; simpl.
  - intros [= <-]. constructor.
  - intros He. apply evaluate_subsequence in He.
    apply Forall_forall. intros it Hit.
    pose proof (items_keys s soup) as Hk. rewrite Forall_forall in Hk.
    apply Hk. exact (subsequence_In _ _ _ _ He Hit).
Qed.

Lemma summary_of_three (generated : string) (r : check_result)
      (a b c : government_result) :
  governments r = [a; b; c] ->
  exists text, Summary.generate_summary generated r = Some text.
Proof.
  intros Hl. unfold Summary.generate_summary. cbv zeta. rewrite Hl.
  destruct (negb (has_any [a; b; c])); eexists; reflexivity.
Qed.

(** X13: a result of [check_all] is always summarised, and the link printed
    for each item is the item's locator: the Alberta block finds every item's
    pdf_url, the other two blocks every item's url, so the default "N/A" is
    never what an item's link line shows. *)
Theorem X13_summary_of_a_check_shows_the_locators
        (w : world) (ref : option string) (n : nat) (c : check_result)
        (generated : string) :
  fst (check_all w ref n) = Ok c ->
  exists alberta canada strathcona text,
    governments c = [alberta; canada; strathcona] /\
    Summary.generate_summary generated c = Some text /\
    Forall (fun it => Some (get_pdf_url it) = locator it) (new_items alberta) /\
    Forall (fun it => Some (get_url it) = locator it) (new_items canada) /\
    Forall (fun it => Some (get_url it) = locator it) (new_items strathcona).
Proof.
  intros Hc. apply check_all_returns in Hc. destruct Hc as (He & _ & _).
  destruct (entries_inv _ _ _ He) as (ra & rb & rc & Ha & Hb & Hc & Hl).
  destruct (summary_of_three generated c _ _ _ Hl) as [text Hs].
  do 3 eexists. exists text. split; [exact Hl|]. split; [exact Hs|].
  cbn [new_items].
  split; [exact (outcome_keys _ _ _ _ Ha)|].
  split; [exact (outcome_keys _ _ _ _ Hb) | exact (outcome_keys _ _ _ _ Hc)].
Qed.

Lemma X13_summary_of_a_check_shows_the_locators_witness :
  exists c alberta canada strathcona text,
    fst (check_all Sample.all_up None 0%nat) = Ok c /\
    governments c = [alberta; canada; strathcona] /\
    Summary.generate_summary "November 03, 2025 at 08:00 AM" c = Some text /\
    Forall (fun it => Some (get_pdf_url it) = locator it) (new_items alberta) /\
    Forall (fun it => Some (get_url it) = locator it) (new_items canada) /\
    Forall (fun it => Some (get_url it) = locator it) (new_items strathcona).
Proof.
  eexists.
  destruct (X13_summary_of_a_check_shows_the_locators Sample.all_up None 0%nat _
              "November 03, 2025 at 08:00 AM" eq_refl)
    as (a & b & c & text & H).
  exists a, b, c, text. split; [reflexivity | exact H].
Defined.

(** ** The first check, as [main] and the routes run it *)








(** ** The routes of [api/index.py] *)

Lemma active_levels_none (r : check_result) :
  Api.active_levels r = [] <-> has_any (governments r) = false.
Proof.
  unfold Api.active_levels, has_any.
  induction (governments r) as [|g govs IH]; simpl; [split; reflexivity|].
  destruct (has_new_content g); simpl; [split; discriminate | exact IH].
Qed.

Lemma neutral_analysis_empty (r : check_result) :
  Api.generate_neutral_analysis r = "" <-> has_any (governments r) = false.
Proof.
  rewrite <- active_levels_none. unfold Api.generate_neutral_analysis.
  destruct (Api.active_levels r); [split; reflexivity|].
  cbn [append]. split; discriminate.
Qed.

Lemma strategic_analysis_empty (r : check_result) :
  Api.generate_strategic_analysis r = "" <-> has_any (governments r) = false.
Proof.
  rewrite <- active_levels_none. unfold Api.generate_strategic_analysis.
  destruct (Api.active_levels r); [split; reflexivity|].
  cbn [append]. split; discriminate.
Qed.

Lemma concat_head (sep x : string) (l : list string) :
  exists tail, String.concat sep (x :: l) = x ++ tail.
Proof.
  destruct l as [|y l].
  - exists "". symmetry. apply append_empty_r.
  - eexists. reflexivity.
Qed.

(** The factual summary of a result of three entries. *)
Lemma factual_summary_quiet_iff (r : check_result) (a b c : government_result) :
  governments r = [a; b; c] ->
  exists text,
    Api.generate_factual_summary r = Some text /\
    (text = "No new legislative activity." <-> has_any [a; b; c] = false).
Proof.
  intros Hl. unfold Api.generate_factual_summary, has_any. cbv zeta. rewrite Hl.
  cbn [nth_error existsb]. unfold Api.factual_block.
  destruct (has_new_content a), (has_new_content b), (has_new_content c);
    cbn [app orb];
    try (eexists; split; [reflexivity|]; split; reflexivity);
    match goal with
    | [ |- context [String.concat nl (?x :: ?l)] ] =>
        destruct (concat_head nl x l) as [tail Ht]; rewrite Ht
    end;
    (eexists; split; [reflexivity|]);
    (split; [intros H; cbn [append] in H; discriminate H | discriminate]).
Qed.

(** X15: the three texts that describe a result agree on whether anything is
    new: for a result of three entries, the factual summary is "No new
    legislative activity.", the neutral analysis is empty and the strategic
    analysis is empty, each exactly when no entry has new content. *)
Theorem X15_summaries_agree (r : check_result) :
  List.length (governments r) = 3%nat ->
  exists text,
    Api.generate_factual_summary r = Some text /\
    (text = "No new legislative activity." <-> has_any (governments r) = false) /\
    (Api.generate_neutral_analysis r = "" <-> has_any (governments r) = false) /\
    (Api.generate_strategic_analysis r = "" <-> has_any (governments r) = false).
Proof.
  intros Hlen.
  destruct (governments r) as [|a [|b [|c [|? ?]]]] eqn:Hl; try discriminate Hlen.
  destruct (factual_summary_quiet_iff r a b c Hl) as (text & Hs & Hq).
  exists text. split; [exact Hs|]. split; [exact Hq|].
  rewrite <- Hl. split; [apply neutral_analysis_empty | apply strategic_analysis_empty].
Qed.

Lemma X15_summaries_agree_witness :
  exists text,
    Api.generate_factual_summary only_strathcona = Some text /\
    (text = "No new legislative activity."
     <-> has_any (governments only_strathcona) = false) /\
    (Api.generate_neutral_analysis only_strathcona = ""
     <-> has_any (governments only_strathcona) = false) /\
    (Api.generate_strategic_analysis only_strathcona = ""
     <-> has_any (governments only_strathcona) = false).
Proof.
  exact (X15_summaries_agree only_strathcona eq_refl).
Defined.



(** ** What the date pattern finds *)



